(** * dewy: release resolution, deploy pipeline and server lifecycle

    A shallow embedding of [repo/github_release.go] and [dewy.go].

    Go values are modelled as the code has them: strings as [string],
    byte slices as [list byte], [int64] as [Z], pointers that may be nil as
    [option], a function returning [(T, error)] as a Rocq function returning
    a pair whose second component is an [option error] ([None] is [nil]).
    Everything outside the process (the GitHub API, HTTP, the cache
    directory, the file system, the clock, signals) is a field of the
    world [World] or an answer of the environment [Env]; every call that
    leaves the process is recorded, in order, in the world's event list. *)

From Stdlib Require Import ZArith String Ascii List Lia.
From Stdlib.Strings Require Import Byte.
From Stdlib Require Import DecimalString DecimalZ.
From stdpp Require Import base option list strings gmap.

Open Scope Z_scope.

(** ** Go runtime *)

(** A Go [error] value, identified by its message. *)
Record error := Errorf { Error : string }.

Global Instance error_eq_dec : EqDecision error.
Proof. solve_decision. Defined.

(** What a call produces: it returns, or the goroutine panics. *)
Inductive Res (A : Type) :=
| Ret (a : A)
| Panic (msg : string).
Arguments Ret {A} a.
Arguments Panic {A} msg.

Definition nilDeref : string :=
  "runtime error: invalid memory address or nil pointer dereference".

(** [*p] for a pointer [p] that may be nil. *)
Definition deref {A} (p : option A) : Res A :=
  match p with
  | Some a => Ret a
  | None => Panic nilDeref
  end.

Abbreviation bytes := (list byte).

(** ** Package [strings] and [fmt] *)

(** [strings.Replace(s, "/", "-", -1)]: the old and the new string are one
    byte each, so every occurrence is replaced in place. *)
Fixpoint ReplaceSlash (s : string) : string :=
  match s with
  | EmptyString => EmptyString
  | String c rest =>
      String (if Ascii.eqb c "/" then "-"%char else c) (ReplaceSlash rest)
  end.

(** The verb [%d] of [fmt.Sprintf] on an [int64]. *)
Definition fmt_d (n : Z) : string := NilZero.string_of_int (Z.to_int n).

(** ** Package [net/url] and the go-github data types *)

(** A parsed URL: the field [Host] and the result of the method
    [RequestURI()]. *)
Record URL := { Host : string; RequestURI : string }.

(** [github.Timestamp], by the value of its method [Unix()]. *)
Record Timestamp := { Unix : Z }.

(** The zero [time.Time], January 1 of year 1. *)
Definition zeroTimestamp : Timestamp := {| Unix := -62135596800 |}.

Record ReleaseAsset := {
  asset_ID : option Z;
  asset_Name : option string;
  asset_BrowserDownloadURL : option string;
  asset_UpdatedAt : option Timestamp
}.

Record RepositoryRelease := {
  rel_ID : option Z;
  rel_TagName : option string;
  rel_HTMLURL : option string;
  rel_Draft : option bool;
  rel_Assets : list ReleaseAsset
}.

(** An [io.Reader] by what draining it gives: the bytes read and the error
    that stopped the reading, if any. *)
Record Reader := { rd_data : bytes; rd_err : option error }.

(** ** The world outside the process *)

Inductive Signal := SIGHUP | SIGINT | SIGTERM | SIGQUIT.

(** Modelled from the spec: the starter configuration of managed-server
    mode (package [server-starter], not part of these sources); [dewy]
    hands it to the starter unread. *)
Record StarterConfig := { starter_args : list string }.

(** One entry per call that leaves the process, in the order of the calls. *)
Inductive Event :=
| EvCacheRead (key : string)
| EvCacheList
| EvCacheWrite (key : string) (data : bytes)
| EvListReleases (owner name : string) (page : Z)
| EvGetLatestRelease (owner name : string)
| EvDownloadReleaseAsset (owner name : string) (id : Z)
| EvHTTPGet (url : string)
| EvMkdirAll (path : string)
| EvExtractArchive (src dst : string)
| EvLstat (path : string)
| EvRemove (path : string)
| EvSymlink (oldname newname : string)
| EvNotify (message : string)
| EvSignal (pid : Z) (sig : Signal)
| EvGoStarter (cfg : StarterConfig).

Record World := {
  cache : gmap string bytes;     (* the cache store: key to bytes *)
  dirs : gset string;            (* directories made with MkdirAll *)
  slots : gmap string string;    (* slot directory to the archive extracted into it *)
  symlinks : gmap string string; (* symbolic links: name to target *)
  events : list Event
}.

Definition set_cache (c : gmap string bytes) (w : World) : World :=
  {| cache := c; dirs := dirs w; slots := slots w; symlinks := symlinks w;
     events := events w |}.
Definition set_dirs (x : gset string) (w : World) : World :=
  {| cache := cache w; dirs := x; slots := slots w; symlinks := symlinks w;
     events := events w |}.
Definition set_slots (x : gmap string string) (w : World) : World :=
  {| cache := cache w; dirs := dirs w; slots := x; symlinks := symlinks w;
     events := events w |}.
Definition set_symlinks (x : gmap string string) (w : World) : World :=
  {| cache := cache w; dirs := dirs w; slots := slots w; symlinks := x;
     events := events w |}.
Definition emit (e : Event) (w : World) : World :=
  {| cache := cache w; dirs := dirs w; slots := slots w; symlinks := symlinks w;
     events := events w ++ [e] |}.

(** The answers of the collaborators. Each may depend on the world at the
    time of the call, which holds the whole history in [events]. *)
Record Env := {
  (* the cache store (package kvs): faults on top of the mapping *)
  kvs_Read_fault : World -> string -> option error;
  kvs_List_fault : World -> option error;
  kvs_Write_fault : World -> string -> bytes -> option error;
  kvs_GetDir : string;
  kvs_ExtractArchive_fault : World -> string -> string -> option error;
  (* go-github and net/http *)
  github_ListReleases :
    World -> string -> string -> Z -> list RepositoryRelease * option error;
  github_GetLatestRelease :
    World -> string -> string -> option RepositoryRelease * option error;
  github_DownloadReleaseAsset :
    World -> string -> string -> Z -> option Reader * string * option error;
  http_Get : World -> string -> option Reader * option error;
  url_Parse : string -> option URL * option error;
  (* os, time, syscall *)
  os_MkdirAll_fault : World -> string -> option error;
  os_Remove_fault : World -> string -> option error;
  os_Symlink_fault : World -> string -> string -> option error;
  time_Now_Format : World -> string;
  os_Getpid : Z;
  Signal_fault : World -> Z -> Signal -> option error
}.

(** ** The monad of the embedding: world passing, with panics *)

Definition M (A : Type) : Type := World -> Res A * World.

Global Instance M_ret : MRet M := fun A a w => (Ret a, w).
Global Instance M_bind : MBind M := fun A B f m w =>
  match m w with
  | (Ret a, w') => f a w'
  | (Panic msg, w') => (Panic msg, w')
  end.

(** A pure step that may panic. *)
Definition liftRes {A} (r : Res A) : M A := fun w => (r, w).

(** The calls on the managed server among the events: the launch of the
    starter and the signal to the process. *)
Definition isLifecycle (e : Event) : bool :=
  match e with
  | EvGoStarter _ | EvSignal _ _ => true
  | _ => false
  end.

Definition isStarter (e : Event) : bool :=
  match e with
  | EvGoStarter _ => true
  | _ => false
  end.

(** The requests to the asset endpoint among the events. *)
Definition isDownload (e : Event) : bool :=
  match e with
  | EvDownloadReleaseAsset _ _ _ => true
  | _ => false
  end.

Global Instance Res_ret : MRet Res := fun A a => Ret a.
Global Instance Res_bind : MBind Res := fun A B f r =>
  match r with
  | Ret a => f a
  | Panic msg => Panic msg
  end.

(** ** The cache store (package [kvs]) *)

Section Cache.
Variable env : Env.

Definition NotFound : error := Errorf "NotFound".

(** Modelled from the spec: [kvs.KVS.Read], [Read(key) -> bytes | NotFound];
    the package is not among the sources. A read can also fail on the
    medium (the read failure of the spec's error taxonomy), as the
    environment decides. *)
Definition cache_Read (key : string) : M (bytes * option error) := fun w =>
  let w' := emit (EvCacheRead key) w in
  match kvs_Read_fault env w key with
  | Some e => (Ret ([], Some e), w')
  | None =>
      match cache w !! key with
      | Some b => (Ret (b, None), w')
      | None => (Ret ([], Some NotFound), w')
      end
  end.

(** Modelled from the spec: [kvs.KVS.List], [List() -> set of keys], with
    the list failure of the spec's error taxonomy. *)
Definition cache_List : M (list string * option error) := fun w =>
  let w' := emit EvCacheList w in
  match kvs_List_fault env w with
  | Some e => (Ret ([], Some e), w')
  | None => (Ret (elements (dom (cache w)), None), w')
  end.

(** Modelled from the spec: [kvs.KVS.Write], [Write(key, bytes) -> ok |
    IOError]. A refused write leaves the mapping as it was. *)
Definition cache_Write (key : string) (data : bytes) : M (option error) := fun w =>
  let w' := emit (EvCacheWrite key data) w in
  match kvs_Write_fault env w key data with
  | Some e => (Ret (Some e), w')
  | None => (Ret None, set_cache (<[key := data]> (cache w)) w')
  end.

(** Modelled from the spec: [kvs.KVS.GetDir], [BaseDirectory() -> path]. *)
Definition cache_GetDir : string := kvs_GetDir env.

(** Modelled from the spec: [kvs.ExtractArchive(src, dst)], which extracts
    the archive at [src] into the directory [dst]; unsupported or corrupt
    archives fail. The slot records which archive it holds. *)
Definition kvs_ExtractArchive (src dst : string) : M (option error) := fun w =>
  let w' := emit (EvExtractArchive src dst) w in
  match kvs_ExtractArchive_fault env w src dst with
  | Some e => (Ret (Some e), w')
  | None => (Ret None, set_slots (<[dst := src]> (slots w)) w')
  end.

End Cache.

(** ** Package [repo]: [github_release.go] *)

Module repo.

Record GithubRelease := {
  baseURL : string;
  uploadURL : string;
  owner : string;
  name : string;
  artifact : string;
  downloadURL : string;
  cacheKey : string;
  releaseID : Z;
  assetID : Z;
  releaseURL : string;
  releaseTag : string;
  prerelease : bool;
  disableRecordShipping : bool;
  updatedAt : Timestamp
}.

Definition set_release (id : Z) (url : string) (g : GithubRelease) : GithubRelease :=
  {| baseURL := baseURL g; uploadURL := uploadURL g; owner := owner g;
     name := name g; artifact := artifact g; downloadURL := downloadURL g;
     cacheKey := cacheKey g; releaseID := id; assetID := assetID g;
     releaseURL := url; releaseTag := releaseTag g;
     prerelease := prerelease g;
     disableRecordShipping := disableRecordShipping g;
     updatedAt := updatedAt g |}.

Definition set_asset (url tag : string) (id : Z) (t : Timestamp)
    (g : GithubRelease) : GithubRelease :=
  {| baseURL := baseURL g; uploadURL := uploadURL g; owner := owner g;
     name := name g; artifact := artifact g; downloadURL := url;
     cacheKey := cacheKey g; releaseID := releaseID g; assetID := id;
     releaseURL := releaseURL g; releaseTag := tag;
     prerelease := prerelease g;
     disableRecordShipping := disableRecordShipping g;
     updatedAt := t |}.

Definition set_cacheKey (k : string) (g : GithubRelease) : GithubRelease :=
  {| baseURL := baseURL g; uploadURL := uploadURL g; owner := owner g;
     name := name g; artifact := artifact g; downloadURL := downloadURL g;
     cacheKey := k; releaseID := releaseID g; assetID := assetID g;
     releaseURL := releaseURL g; releaseTag := releaseTag g;
     prerelease := prerelease g;
     disableRecordShipping := disableRecordShipping g;
     updatedAt := updatedAt g |}.

(** The right-hand side of the assignment in [setCacheKey]:
    [strings.Replace(fmt.Sprintf("%s--%d-%s", host, unix, uri), "/", "-", -1)]. *)
Definition formatCacheKey (host : string) (unix : Z) (uri : string) : string :=
  ReplaceSlash (host +:+ "--" +:+ fmt_d unix +:+ "-" +:+ uri).

Section WithEnv.
Variable env : Env.

(** The loop of [latest] over the first page. [r] is the variable
    [var r *github.RepositoryRelease] of the function; the result is [None]
    when the loop runs to its end and [Some] of what the [return] inside it
    returns. *)
Fixpoint latestLoop (r : option RepositoryRelease) (rr : list RepositoryRelease)
    : Res (option (option RepositoryRelease * option error)) :=
  match rr with
  | [] => Ret None
  | v :: rest =>
      draft ← deref (rel_Draft v);
      if (draft : bool) then latestLoop r rest else Ret (Some (r, None))
  end.

Definition getLatestRelease (g : GithubRelease)
    : M (option RepositoryRelease * option error) := fun w =>
  let w' := emit (EvGetLatestRelease (owner g) (name g)) w in
  match github_GetLatestRelease env w (owner g) (name g) with
  | (_, Some e) => (Ret (None, Some e), w')
  | (r, None) => (Ret (r, None), w')
  end.

Definition latest (g : GithubRelease)
    : M (option RepositoryRelease * option error) :=
  let r : option RepositoryRelease := None in
  if prerelease g then
    fun w =>
      let w' := emit (EvListReleases (owner g) (name g) 1) w in
      match github_ListReleases env w (owner g) (name g) 1 with
      | (_, Some e) => (Ret (None, Some e), w')
      | (rr, None) =>
          match latestLoop r rr with
          | Panic msg => (Panic msg, w')
          | Ret (Some out) => (Ret out, w')
          | Ret None => getLatestRelease g w'
          end
      end
  else getLatestRelease g.

Definition setCacheKey (g : GithubRelease) : Res (GithubRelease * option error) :=
  match url_Parse env (downloadURL g) with
  | (_, Some e) => Ret (g, Some e)
  | (u, None) =>
      u ← deref u;
      Ret (set_cacheKey
             (formatCacheKey (Host u) (Unix (updatedAt g)) (RequestURI u)) g,
           None)
  end.

(** The loop of [Fetch] over the assets of the release. *)
Fixpoint fetchLoop (release : RepositoryRelease) (assets : list ReleaseAsset)
    (g : GithubRelease) : Res GithubRelease :=
  match assets with
  | [] => Ret g
  | v :: rest =>
      n ← deref (asset_Name v);
      if String.eqb n (artifact g) then
        url ← deref (asset_BrowserDownloadURL v);
        tag ← deref (rel_TagName release);
        id ← deref (asset_ID v);
        t ← deref (asset_UpdatedAt v);
        Ret (set_asset url tag id t g)
      else fetchLoop release rest g
  end.

Definition Fetch (g : GithubRelease) : M (GithubRelease * option error) :=
  '(release, err) ← latest g;
  match err with
  | Some e => mret (g, Some e)
  | None =>
      liftRes (
        release ← deref release;
        id ← deref (rel_ID release);
        url ← deref (rel_HTMLURL release);
        g ← fetchLoop release (rel_Assets release) (set_release id url g);
        setCacheKey g)
  end.

Definition downloadReleaseAsset (g : GithubRelease)
    : M (option Reader * string * option error) := fun w =>
  (Ret (github_DownloadReleaseAsset env w (owner g) (name g) (assetID g)),
   emit (EvDownloadReleaseAsset (owner g) (name g) (assetID g)) w).

Definition httpGet (url : string) : M (option Reader * option error) := fun w =>
  (Ret (http_Get env w url), emit (EvHTTPGet url) w).

(** [io.Copy(buf, reader)] into a fresh buffer: the bytes and the error. *)
Definition io_Copy (reader : option Reader) : Res (bytes * option error) :=
  r ← deref reader;
  Ret (rd_data r, rd_err r).

Definition download (g : GithubRelease) : M (option error) :=
  '(reader, url, err) ← downloadReleaseAsset g;
  match err with
  | Some e => mret (Some e)
  | None =>
      '(reader, err) ←
        (if String.eqb url "" then mret (reader, None)
         else
           '(body, err) ← httpGet url;
           match err with
           | Some e => mret (reader, Some e)
           | None => mret (body, None)
           end);
      match err with
      | Some e => mret (Some e)
      | None =>
          '(buf, err) ← liftRes (io_Copy reader);
          match err with
          | Some e => mret (Some e)
          | None => cache_Write env (cacheKey g) buf
          end
      end
  end.

Definition NoNeedToDeploy : error := Errorf "No need to deploy".

(** The loop of [GetDeploySourceKey] over the listed keys: [None] when the
    [return] inside the loop is taken, [Some found] when the loop ends. *)
Fixpoint keysLoop (currentSourceKey cacheKey : string) (list : list string)
    : option bool :=
  match list with
  | [] => Some false
  | key :: rest =>
      if String.eqb currentSourceKey cacheKey && String.eqb key cacheKey then None
      else if String.eqb key cacheKey then Some true
      else keysLoop currentSourceKey cacheKey rest
  end.

Definition currentKey : string := "current.txt".

Definition GetDeploySourceKey (g : GithubRelease) : M (string * option error) :=
  '(currentSourceKey, _) ← cache_Read env currentKey;
  '(list, err) ← cache_List env;
  match err with
  | Some e => mret ("", Some e)
  | None =>
      match keysLoop (string_of_list_byte currentSourceKey) (cacheKey g) list with
      | None => mret ("", Some NoNeedToDeploy)
      | Some found =>
          err ← (if negb found then download g else mret None);
          match err with
          | Some e => mret ("", Some e)
          | None =>
              err ← cache_Write env currentKey (list_byte_of_string (cacheKey g));
              match err with
              | Some e => mret ("", Some e)
              | None => mret (cacheKey g, None)
              end
          end
      end
  end.

End WithEnv.
End repo.

(** ** Package [dewy]: [dewy.go] *)

Module dewy.

(** Modelled from the spec: the command of the configuration, "managed-server
    mode on/off"; its declaration is not among the sources. [Run] compares
    it with [SERVER]. *)
Inductive Command := SERVER | ASSETS.

(** The fields [NewGithubRelease] reads from the repository configuration. *)
Record RepositoryConfig := {
  Owner : string;
  Name : string;
  Artifact : string;
  PreRelease : bool;
  DisableRecordShipping : bool
}.

Record Config := {
  cfg_Command : Command;
  cfg_Repository : RepositoryConfig;
  cfg_Starter : StarterConfig
}.

(** The interface [Repository] as [Run] uses it; its declaration is not
    among the sources. A repository has its own state [R] (its connection
    to the release host included) and shares the cache store it was made
    with; it has no handle on the deployment tree or on the process. *)
Class Repository (R : Type) := {
  NewRepository : RepositoryConfig -> R;
  repo_Fetch : R -> gmap string bytes -> R * gmap string bytes * option error;
  repo_IsDownloadNecessary : R -> gmap string bytes -> R * gmap string bytes * bool;
  repo_Download :
    R -> gmap string bytes -> R * gmap string bytes * (string * option error);
  repo_ReleaseHTMLURL : R -> string;
  repo_ReleaseTag : R -> string;
  repo_Record : R -> gmap string bytes -> R * gmap string bytes * option error
}.

Record Dewy (R : Type) := {
  config : Config;
  repository : option R;
  isServerRunning : bool;
  root : string
}.
Arguments config {R} d.
Arguments repository {R} d.
Arguments isServerRunning {R} d.
Arguments root {R} d.

Definition set_repository {R} (r : option R) (d : Dewy R) : Dewy R :=
  {| config := config d; repository := r;
     isServerRunning := isServerRunning d; root := root d |}.
Definition set_isServerRunning {R} (b : bool) (d : Dewy R) : Dewy R :=
  {| config := config d; repository := repository d;
     isServerRunning := b; root := root d |}.

Definition releasesDir : string := "releases".
Definition symlinkDir : string := "current".

(** [filepath.Join]: the non-empty elements, separated by a slash. The
    cleaning of the result is left out: the paths are used as names only. *)
Fixpoint filepath_Join (elem : list string) : string :=
  match elem with
  | [] => ""
  | e :: rest =>
      let tail := filepath_Join rest in
      if String.eqb e "" then tail
      else if String.eqb tail "" then e
      else e +:+ "/" +:+ tail
  end.

(** [New]'s result for the working directory [wd]. *)
Definition New {R} (c : Config) (wd : string) : Dewy R :=
  {| config := c; repository := None; isServerRunning := false; root := wd |}.

Section WithEnv.
Variable env : Env.
Context {R : Type} {HR : Repository R}.

Definition ErrExist : error := Errorf "file exists".
Definition ErrNotExist : error := Errorf "no such file or directory".

Definition time_Now_UTC_Format : M string := fun w =>
  (Ret (time_Now_Format env w), w).

Definition os_MkdirAll (path : string) : M (option error) := fun w =>
  let w' := emit (EvMkdirAll path) w in
  match os_MkdirAll_fault env w path with
  | Some e => (Ret (Some e), w')
  | None => (Ret None, set_dirs ({[path]} ∪ dirs w) w')
  end.

(** [os.Lstat], by its error. Only symbolic links are looked up: the link
    is the one name [deploy] asks for. *)
Definition os_Lstat (path : string) : M (option error) := fun w =>
  let w' := emit (EvLstat path) w in
  match symlinks w !! path with
  | Some _ => (Ret None, w')
  | None => (Ret (Some ErrNotExist), w')
  end.

Definition os_Remove (path : string) : M (option error) := fun w =>
  let w' := emit (EvRemove path) w in
  match os_Remove_fault env w path with
  | Some e => (Ret (Some e), w')
  | None => (Ret None, set_symlinks (delete path (symlinks w)) w')
  end.

Definition os_Symlink (oldname newname : string) : M (option error) := fun w =>
  let w' := emit (EvSymlink oldname newname) w in
  match os_Symlink_fault env w oldname newname with
  | Some e => (Ret (Some e), w')
  | None =>
      match symlinks w !! newname with
      | Some _ => (Ret (Some ErrExist), w')
      | None => (Ret None, set_symlinks (<[newname := oldname]> (symlinks w)) w')
      end
  end.

Definition notify (message : string) : M unit := fun w =>
  (Ret tt, emit (EvNotify message) w).

Definition preserve (d : Dewy R) (p : string) : M (string * option error) :=
  now ← time_Now_UTC_Format;
  let dst := filepath_Join [root d; releasesDir; now] in
  err ← os_MkdirAll dst;
  match err with
  | Some e => mret ("", Some e)
  | None =>
      err ← kvs_ExtractArchive env p dst;
      match err with
      | Some e => mret ("", Some e)
      | None => mret (dst, None)
      end
  end.

Definition deploy (d : Dewy R) (key : string) : M (option error) :=
  let p := filepath_Join [cache_GetDir env; key] in
  '(linkFrom, err) ← preserve d p;
  match err with
  | Some e => mret (Some e)
  | None =>
      let linkTo := filepath_Join [root d; symlinkDir] in
      err ← os_Lstat linkTo;
      _ ← (match err with
           | None => _ ← os_Remove linkTo; mret tt
           | Some _ => mret tt
           end);
      os_Symlink linkFrom linkTo
  end.

Definition restartServer (d : Dewy R) : M (option error) := fun w =>
  let pid := os_Getpid env in
  (Ret (Signal_fault env w pid SIGHUP), emit (EvSignal pid SIGHUP) w).

(** The goroutine that makes the starter from [d.config.Starter] and runs it
    is one event; [startServer] does not wait for it. *)
Definition startServer (d : Dewy R) : M (Dewy R * option error) := fun w =>
  let d := set_isServerRunning true d in
  (Ret (d, None), emit (EvGoStarter (cfg_Starter (config d))) w).

(** A call of a method of [d.repository]; a nil interface panics. *)
Definition callRepo {A} (f : R -> gmap string bytes -> R * gmap string bytes * A)
    (d : Dewy R) : M (Dewy R * A) := fun w =>
  match repository d with
  | None => (Panic nilDeref, w)
  | Some r =>
      let '(r', c', a) := f r (cache w) in
      (Ret (set_repository (Some r') d, a), set_cache c' w)
  end.

Definition withRepo {A} (f : R -> A) (d : Dewy R) : Res A :=
  r ← deref (repository d);
  Ret (f r).

Definition finalizeDeploy (d : Dewy R) : M (Dewy R) :=
  '(d, _) ← callRepo repo_Record d;
  mret d.

Definition Run (d : Dewy R) : M (Dewy R * option error) :=
  let d := set_repository (Some (NewRepository (cfg_Repository (config d)))) d in
  '(d, err) ← callRepo repo_Fetch d;
  match err with
  | Some e => mret (d, Some e)
  | None =>
      '(d, necessary) ← callRepo repo_IsDownloadNecessary d;
      if negb necessary then mret (d, None)
      else
        '(d, (key, err)) ← callRepo repo_Download d;
        match err with
        | Some _ => mret (d, None)
        | None =>
            url ← liftRes (withRepo repo_ReleaseHTMLURL d);
            tag ← liftRes (withRepo repo_ReleaseTag d);
            _ ← notify ("New release <" +:+ url +:+ "|" +:+ tag +:+ "> was downloaded");
            err ← deploy d key;
            match err with
            | Some e => mret (d, Some e)
            | None =>
                match cfg_Command (config d) with
                | ASSETS => mret (d, None)
                | SERVER =>
                    '(d, err) ←
                      (if isServerRunning d then
                         _ ← notify "Server restarting";
                         err ← restartServer d;
                         mret (d, err)
                       else
                         _ ← notify "Server starting";
                         startServer d);
                    d ← finalizeDeploy d;
                    mret (d, err)
                end
            end
        end
  end.

(** The job that [Start] schedules: [Run] at every tick, one cycle after
    the other, its error dropped; here the first [n] ticks. *)
Fixpoint ticks (n : nat) (d : Dewy R) : M (Dewy R) :=
  match n with
  | O => mret d
  | S n' =>
      '(d, _) ← Run d;
      ticks n' d
  end.

(** What the history shows of the managed server: nothing while it is not
    running; once it runs, one launch of the starter, followed by restart
    signals only. *)
Definition lifecycle_inv (c : Config) (d : Dewy R) (w : World) : Prop :=
  config d = c /\
  ((isServerRunning d = false /\ List.filter isLifecycle (events w) = []) \/
   (isServerRunning d = true /\
    exists sigs,
      List.filter isLifecycle (events w) = EvGoStarter (cfg_Starter c) :: sigs /\
      Forall (fun e => e = EvSignal (os_Getpid env) SIGHUP) sigs)).

End WithEnv.
End dewy.

(** ** [RecordShipping] of [github_release.go] *)

Module shipping.
Import repo.

(** [strings.Replace(s, " ", "_", -1)]. *)
Fixpoint ReplaceSpace (s : string) : string :=
  match s with
  | EmptyString => EmptyString
  | String c rest =>
      String (if Ascii.eqb c " " then "_"%char else c) (ReplaceSpace rest)
  end.

(** [github.UploadOptions], by the one field that is set. *)
Record UploadOptions := { opt_Name : string }.

(** What [NewUploadRequest] is given: the URL, the body, its declared size
    and the media type. *)
Record UploadRequest := {
  req_url : string;
  req_body : bytes;
  req_size : Z;
  req_mediaType : string
}.

(** The collaborators of [RecordShipping]: the clock, the host name, the
    packages [strings], [net/url] and [go-querystring], and the client.
    [ship_url_String s q] is [u.String()] for the URL [u] parsed from [s]
    once [u.RawQuery] is set to [q]. *)
Record ShipEnv := {
  ship_Now_Format : string;
  ship_Hostname : string * option error;
  strings_ToLower : string -> string;
  ship_url_Parse_err : string -> option error;
  query_Values_Encode : UploadOptions -> string * option error;
  ship_url_String : string -> string -> string;
  NewUploadRequest_err : string -> bytes -> Z -> string -> option error;
  client_Do : UploadRequest -> option error
}.

(** The error returned and the requests sent with [g.cl.Do], in order. *)
Definition RecordShipping (senv : ShipEnv) (g : GithubRelease)
    : option error * list UploadRequest :=
  if disableRecordShipping g then (None, [])
  else
    let now := ship_Now_Format senv in
    let '(hostname, _) := ship_Hostname senv in
    let info := "shipped to " +:+ strings_ToLower senv hostname +:+ " at " +:+ now in
    let s := "repos/" +:+ owner g +:+ "/" +:+ name g +:+ "/releases/" +:+
             fmt_d (releaseID g) +:+ "/assets" in
    let opt := {| opt_Name := ReplaceSpace info +:+ ".txt" |} in
    match ship_url_Parse_err senv s with
    | Some e => (Some e, [])
    | None =>
        match query_Values_Encode senv opt with
        | (_, Some e) => (Some e, [])
        | (qs, None) =>
            let u := ship_url_String senv s qs in
            let byteData := list_byte_of_string info in
            let size := Z.of_nat (length byteData) in
            match NewUploadRequest_err senv u byteData size "text/plain" with
            | Some e => (Some e, [])
            | None =>
                let req := {| req_url := u; req_body := byteData;
                              req_size := size; req_mediaType := "text/plain" |} in
                (client_Do senv req, [req])
            end
        end
    end.

End shipping.

(** ** The earlier repository ([src/unnamed/part_000], package [dewy]) *)

Module repository.

(** The provider of the configuration; [NewRepository] knows [GITHUB]
    only. Its declaration is not among the sources. *)
Inductive Provider := GITHUB | OtherProvider.

(** The fields [NewRepository] reads from the configuration. *)
Record RepositoryConfig := {
  cfg_Provider : Provider;
  cfg_Token : string;
  cfg_Endpoint : string;
  cfg_Owner : string;
  cfg_Name : string;
  cfg_Artifact : string
}.

Record GithubReleaseRepository := {
  token : string;
  endpoint : string;
  owner : string;
  name : string;
  artifact : string;
  downloadURL : string
}.

Definition set_downloadURL (url : string) (g : GithubReleaseRepository)
    : GithubReleaseRepository :=
  {| token := token g; endpoint := endpoint g; owner := owner g;
     name := name g; artifact := artifact g; downloadURL := url |}.

Definition NewRepository (c : RepositoryConfig) : Res GithubReleaseRepository :=
  match cfg_Provider c with
  | GITHUB =>
      Ret {| token := cfg_Token c; endpoint := cfg_Endpoint c;
             owner := cfg_Owner c; name := cfg_Name c;
             artifact := cfg_Artifact c; downloadURL := "" |}
  | _ => Panic "no repository provider"
  end.

(** The [github.Client] made for a call: the token of its transport and
    its base URL. *)
Record Client := { client_token : string; client_BaseURL : option URL }.

(** The base URL of a fresh [github.NewClient]. *)
Definition defaultBaseURL : URL := {| Host := "api.github.com"; RequestURI := "/" |}.

(** A call that leaves the process. *)
Inductive Call :=
| CallGetLatestRelease (c : Client) (owner name : string)
| CallGet (url : string)
| CallOpenFile (name : string)
| CallWrite (name : string) (data : bytes).

(** The files of the working directory and the calls made so far. *)
Record Disk := { files : gmap string bytes; calls : list Call }.

Definition log (c : Call) (st : Disk) : Disk :=
  {| files := files st; calls := calls st ++ [c] |}.
Definition set_files (f : gmap string bytes) (st : Disk) : Disk :=
  {| files := f; calls := calls st |}.

(** The collaborators: [net/url], the release host, [net/http] and the
    files. [sys_Write_count name data] is the number of bytes of [data]
    that a [Write] to the file [name] takes. *)
Record Sys := {
  sys_url_Parse : string -> option URL * option error;
  sys_GetLatestRelease :
    Client -> string -> string -> option RepositoryRelease * option error;
  sys_http_Get : string -> option Reader * option error;
  sys_OpenFile_fault : Disk -> string -> option error;
  sys_Write_count : string -> bytes -> nat
}.

(** [path.Split]: the path up to and with its last slash, and the rest. *)
Fixpoint path_Split (p : string) : string * string :=
  match p with
  | EmptyString => ("", "")
  | String c rest =>
      let '(dir, file) := path_Split rest in
      if String.eqb dir "" then
        if Ascii.eqb c "/" then (String c "", file) else ("", String c file)
      else (String c dir, file)
  end.

Section WithSys.
Variable sys : Sys.

Definition client (g : GithubReleaseRepository) : option Client * option error :=
  let c := {| client_token := token g; client_BaseURL := Some defaultBaseURL |} in
  if negb (String.eqb (endpoint g) "") then
    match sys_url_Parse sys (endpoint g) with
    | (_, Some e) => (None, Some e)
    | (url, None) =>
        (Some {| client_token := token g; client_BaseURL := url |}, None)
    end
  else (Some c, None).

(** The loop of [Fetch] over the assets. *)
Fixpoint fetchLoop (assets : list ReleaseAsset) (g : GithubReleaseRepository)
    : Res GithubReleaseRepository :=
  match assets with
  | [] => Ret g
  | v :: rest =>
      n ← deref (asset_Name v);
      if String.eqb n (artifact g) then
        url ← deref (asset_BrowserDownloadURL v);
        Ret (set_downloadURL url g)
      else fetchLoop rest g
  end.

Definition Fetch (g : GithubReleaseRepository) (st : Disk)
    : Res (GithubReleaseRepository * option error) * Disk :=
  match client g with
  | (_, Some e) => (Ret (g, Some e), st)
  | (c, None) =>
      match deref c with
      | Panic msg => (Panic msg, st)
      | Ret c =>
          let st' := log (CallGetLatestRelease c (owner g) (name g)) st in
          match sys_GetLatestRelease sys c (owner g) (name g) with
          | (_, Some e) => (Ret (g, Some e), st')
          | (release, None) =>
              (release ← deref release;
               g ← fetchLoop (rel_Assets release) g;
               Ret (g, None), st')
          end
      end
  end.

(** [file.Write(body)] on a file opened with [O_CREATE|O_WRONLY]: the bytes
    taken replace the head of the file, what lies behind them stays. *)
Definition writeAt0 (taken : nat) (body old : bytes) : bytes :=
  take taken body ++ drop taken old.

Definition Download (g : GithubReleaseRepository) (st : Disk)
    : Res (option error) * Disk :=
  let st1 := log (CallGet (downloadURL g)) st in
  match sys_http_Get sys (downloadURL g) with
  | (_, Some e) => (Ret (Some e), st1)
  | (res, None) =>
      match deref res with
      | Panic msg => (Panic msg, st1)
      | Ret body =>
          match rd_err body with
          | Some e => (Ret (Some e), st1)
          | None =>
              let '(_, filename) := path_Split (downloadURL g) in
              let st2 := log (CallOpenFile filename) st1 in
              match sys_OpenFile_fault sys st1 filename with
              | Some e => (Ret (Some e), st2)
              | None =>
                  let old := default [] (files st !! filename) in
                  let taken :=
                    Nat.min (sys_Write_count sys filename (rd_data body))
                            (length (rd_data body)) in
                  (Ret None,
                   set_files
                     (<[filename := writeAt0 taken (rd_data body) old]> (files st))
                     (log (CallWrite filename (rd_data body)) st2))
              end
          end
      end
  end.

End WithSys.
End repository.

(** ** Concrete environments and worlds *)

Module Examples.
Import repo dewy.

Definition exampleURL : string :=
  "https://github.com/releases/download/v1.2.3/app-linux.tar.gz".
Definition exampleKey : string :=
  "github.com--1672531200--releases-download-v1.2.3-app-linux.tar.gz".
Definition exampleData : bytes := list_byte_of_string "archive".

Definition asset1 : ReleaseAsset :=
  {| asset_ID := Some 7; asset_Name := Some "app-linux.tar.gz";
     asset_BrowserDownloadURL := Some exampleURL;
     asset_UpdatedAt := Some {| Unix := 1672531200 |} |}.

Definition otherAsset : ReleaseAsset :=
  {| asset_ID := Some 8; asset_Name := Some "checksums.txt";
     asset_BrowserDownloadURL :=
       Some "https://github.com/releases/download/v1.2.3/checksums.txt";
     asset_UpdatedAt := Some {| Unix := 1672531200 |} |}.

Definition release1 : RepositoryRelease :=
  {| rel_ID := Some 101; rel_TagName := Some "v1.2.3";
     rel_HTMLURL := Some "https://github.com/linyows/dewy/releases/tag/v1.2.3";
     rel_Draft := Some false; rel_Assets := [otherAsset; asset1] |}.

(** A release without the configured artifact. *)
Definition release2 : RepositoryRelease :=
  {| rel_ID := Some 102; rel_TagName := Some "v1.2.4";
     rel_HTMLURL := Some "https://github.com/linyows/dewy/releases/tag/v1.2.4";
     rel_Draft := Some false; rel_Assets := [otherAsset] |}.

(** A parser that knows the URLs of the examples: the asset URL and the
    empty string, which [url.Parse] accepts and whose request URI is ["/"]. *)
Definition parseURL (s : string) : option URL * option error :=
  if String.eqb s exampleURL then
    (Some {| Host := "github.com";
             RequestURI := "/releases/download/v1.2.3/app-linux.tar.gz" |}, None)
  else if String.eqb s "" then (Some {| Host := ""; RequestURI := "/" |}, None)
  else (None, Some (Errorf "parse error")).

(** An environment by its faults: the errors with which it answers a store
    write, the asset download, an extraction and the making of a link, and
    the release it lists and reports as latest. *)
Definition env_with (write download extract symlink : option error)
    (rel : RepositoryRelease) : Env :=
  {| kvs_Read_fault := fun _ _ => None;
     kvs_List_fault := fun _ => None;
     kvs_Write_fault := fun _ _ _ => write;
     kvs_GetDir := "/var/cache/dewy";
     kvs_ExtractArchive_fault := fun _ _ _ => extract;
     github_ListReleases := fun _ _ _ _ => ([rel], None);
     github_GetLatestRelease := fun _ _ _ => (Some rel, None);
     github_DownloadReleaseAsset := fun _ _ _ _ =>
       match download with
       | Some e => (None, "", Some e)
       | None => (Some {| rd_data := exampleData; rd_err := None |}, "", None)
       end;
     http_Get := fun _ _ => (None, Some (Errorf "no route to host"));
     url_Parse := parseURL;
     os_MkdirAll_fault := fun _ _ => None;
     os_Remove_fault := fun _ _ => None;
     os_Symlink_fault := fun _ _ _ => symlink;
     time_Now_Format := fun _ => "20230101T000000Z";
     os_Getpid := 4242;
     Signal_fault := fun _ _ _ => None |}.

Definition env_ok : Env := env_with None None None None release1.
Definition env_write_refused : Env :=
  env_with (Some (Errorf "read-only file system")) None None None release1.
Definition env_download_fails : Env :=
  env_with None (Some (Errorf "connection reset")) None None release1.
Definition env_extract_fails : Env :=
  env_with None None (Some (Errorf "unsupported archive")) None release1.
Definition env_symlink_refused : Env :=
  env_with None None None (Some (Errorf "no space left on device")) release1.
Definition env_no_artifact : Env := env_with None None None None release2.

(** The resolver before its first [Fetch]. *)
Definition g0 : GithubRelease :=
  {| baseURL := "https://api.github.com/";
     uploadURL := "https://uploads.github.com/";
     owner := "linyows"; name := "dewy"; artifact := "app-linux.tar.gz";
     downloadURL := ""; cacheKey := ""; releaseID := 0; assetID := 0;
     releaseURL := ""; releaseTag := ""; prerelease := false;
     disableRecordShipping := true; updatedAt := zeroTimestamp |}.

(** The same resolver in pre-release mode. *)
Definition g0_pre : GithubRelease :=
  {| baseURL := baseURL g0; uploadURL := uploadURL g0; owner := owner g0;
     name := name g0; artifact := artifact g0; downloadURL := "";
     cacheKey := ""; releaseID := 0; assetID := 0; releaseURL := "";
     releaseTag := ""; prerelease := true;
     disableRecordShipping := true; updatedAt := zeroTimestamp |}.

(** The resolver after [Fetch] has found [asset1]. *)
Definition g1 : GithubRelease :=
  set_cacheKey exampleKey
    (set_asset exampleURL "v1.2.3" 7 {| Unix := 1672531200 |}
       (set_release 101 "https://github.com/linyows/dewy/releases/tag/v1.2.3" g0)).

Definition oldSlot : string := "/srv/app/releases/20221201T000000Z".
Definition oldKey : string :=
  "github.com--1669852800--releases-download-v1.2.2-app-linux.tar.gz".

Definition world_of (c : gmap string bytes) : World :=
  {| cache := c; dirs := {[oldSlot]};
     slots := {[oldSlot := "/var/cache/dewy/" +:+ oldKey]};
     symlinks := {["/srv/app/current" := oldSlot]}; events := [] |}.

(** The store holds an older artifact and points at it. *)
Definition w_old : World :=
  world_of (<[currentKey := list_byte_of_string oldKey]>
              {[oldKey := list_byte_of_string "old archive"]}).

(** The store also holds the example's artifact, not yet current. *)
Definition w_cached : World :=
  world_of (<[exampleKey := exampleData]> (cache w_old)).

(** The store holds the example's artifact and points at it. *)
Definition w_current : World :=
  world_of (<[currentKey := list_byte_of_string exampleKey]> (cache w_cached)).

(** A repository that finds the example's artifact on every cycle. *)
Global Instance stubRepository : Repository unit := {|
  NewRepository := fun _ => tt;
  repo_Fetch := fun r c => (r, c, None);
  repo_IsDownloadNecessary := fun r c => (r, c, true);
  repo_Download := fun r c =>
    (r, <[currentKey := list_byte_of_string exampleKey]>
          (<[exampleKey := exampleData]> c), (exampleKey, None));
  repo_ReleaseHTMLURL := fun _ =>
    "https://github.com/linyows/dewy/releases/tag/v1.2.3";
  repo_ReleaseTag := fun _ => "v1.2.3";
  repo_Record := fun r c => (r, c, None)
|}.

Definition config_server : Config :=
  {| cfg_Command := SERVER;
     cfg_Repository :=
       {| Owner := "linyows"; Name := "dewy"; Artifact := "app-linux.tar.gz";
          PreRelease := false; DisableRecordShipping := true |};
     cfg_Starter := {| starter_args := ["--port"; "8000"; "--"; "/srv/app/current/app"] |} |}.

Definition dewy0 : Dewy unit := New config_server "/srv/app".
Definition dewy_running : Dewy unit := set_isServerRunning true dewy0.

End Examples.

(** ** Further environments *)

Module Examples2.
Import repo dewy Examples.

Definition draft1 : RepositoryRelease :=
  {| rel_ID := Some 103; rel_TagName := Some "v1.3.0-rc1";
     rel_HTMLURL := Some "https://github.com/linyows/dewy/releases/tag/v1.3.0-rc1";
     rel_Draft := Some true; rel_Assets := [asset1] |}.

(** The environment [base] with other answers of the release host: the
    first page of releases and the latest release. *)
Definition with_releases
    (page : list RepositoryRelease * option error)
    (latest : option RepositoryRelease * option error) (base : Env) : Env :=
  {| kvs_Read_fault := kvs_Read_fault base;
     kvs_List_fault := kvs_List_fault base;
     kvs_Write_fault := kvs_Write_fault base;
     kvs_GetDir := kvs_GetDir base;
     kvs_ExtractArchive_fault := kvs_ExtractArchive_fault base;
     github_ListReleases := fun _ _ _ _ => page;
     github_GetLatestRelease := fun _ _ _ => latest;
     github_DownloadReleaseAsset := github_DownloadReleaseAsset base;
     http_Get := http_Get base;
     url_Parse := url_Parse base;
     os_MkdirAll_fault := os_MkdirAll_fault base;
     os_Remove_fault := os_Remove_fault base;
     os_Symlink_fault := os_Symlink_fault base;
     time_Now_Format := time_Now_Format base;
     os_Getpid := os_Getpid base;
     Signal_fault := Signal_fault base |}.

(** The environment [base] with faults of the store's listing and of the
    removal of a link. *)
Definition with_faults (list remove : option error) (base : Env) : Env :=
  {| kvs_Read_fault := kvs_Read_fault base;
     kvs_List_fault := fun _ => list;
     kvs_Write_fault := kvs_Write_fault base;
     kvs_GetDir := kvs_GetDir base;
     kvs_ExtractArchive_fault := kvs_ExtractArchive_fault base;
     github_ListReleases := github_ListReleases base;
     github_GetLatestRelease := github_GetLatestRelease base;
     github_DownloadReleaseAsset := github_DownloadReleaseAsset base;
     http_Get := http_Get base;
     url_Parse := url_Parse base;
     os_MkdirAll_fault := os_MkdirAll_fault base;
     os_Remove_fault := fun _ _ => remove;
     os_Symlink_fault := os_Symlink_fault base;
     time_Now_Format := time_Now_Format base;
     os_Getpid := os_Getpid base;
     Signal_fault := Signal_fault base |}.

(** The first page holds drafts only. *)
Definition env_drafts : Env :=
  with_releases ([draft1; draft1], None) (Some release1, None) env_ok.

(** The release host refuses the listing of releases. *)
Definition env_list_releases_fails : Env :=
  with_releases ([], Some (Errorf "401 Bad credentials")) (Some release1, None) env_ok.

(** The store cannot be listed. *)
Definition env_list_fails : Env :=
  with_faults (Some (Errorf "permission denied")) None env_ok.

(** The old link cannot be removed. *)
Definition env_remove_fails : Env :=
  with_faults None (Some (Errorf "operation not permitted")) env_ok.

(** A repository whose download fails. *)
Definition failingDownload : Repository unit := {|
  NewRepository := fun _ => tt;
  repo_Fetch := fun r c => (r, c, None);
  repo_IsDownloadNecessary := fun r c => (r, c, true);
  repo_Download := fun r c => (r, c, ("", Some (Errorf "connection reset")));
  repo_ReleaseHTMLURL := fun _ => "";
  repo_ReleaseTag := fun _ => "";
  repo_Record := fun r c => (r, c, None)
|}.

(** A repository that counts the calls of [Record] in its state. *)
Definition countingRepository : Repository nat := {|
  NewRepository := fun _ => O;
  repo_Fetch := fun r c => (r, c, None);
  repo_IsDownloadNecessary := fun r c => (r, c, true);
  repo_Download := fun r c =>
    (r, <[currentKey := list_byte_of_string exampleKey]>
          (<[exampleKey := exampleData]> c), (exampleKey, None));
  repo_ReleaseHTMLURL := fun _ =>
    "https://github.com/linyows/dewy/releases/tag/v1.2.3";
  repo_ReleaseTag := fun _ => "v1.2.3";
  repo_Record := fun r c => (S r, c, None)
|}.

Definition config_assets : Config :=
  {| cfg_Command := ASSETS;
     cfg_Repository := cfg_Repository config_server;
     cfg_Starter := {| starter_args := [] |} |}.

Definition dewy_assets : Dewy nat := New config_assets "/srv/app".

(** A host named [Web-01] at a fixed time; nothing fails. *)
Definition shipenv_ok : shipping.ShipEnv :=
  {| shipping.ship_Now_Format := "20230101T000000Z";
     shipping.ship_Hostname := ("web-01", None);
     shipping.strings_ToLower := fun s => s;
     shipping.ship_url_Parse_err := fun _ => None;
     shipping.query_Values_Encode := fun opt => ("name=" +:+ shipping.opt_Name opt, None);
     shipping.ship_url_String := fun s q => s +:+ "?" +:+ q;
     shipping.NewUploadRequest_err := fun _ _ _ _ => None;
     shipping.client_Do := fun _ => None |}.

(** The resolver [g1] with the recording of shippings switched on. *)
Definition g1_shipping : GithubRelease :=
  {| baseURL := baseURL g1; uploadURL := uploadURL g1; owner := owner g1;
     name := name g1; artifact := artifact g1; downloadURL := downloadURL g1;
     cacheKey := cacheKey g1; releaseID := releaseID g1; assetID := assetID g1;
     releaseURL := releaseURL g1; releaseTag := releaseTag g1;
     prerelease := prerelease g1; disableRecordShipping := false;
     updatedAt := updatedAt g1 |}.

(** The collaborators of the earlier repository: the latest release is
    [rel], every GET serves [exampleData], writes are complete. *)
Definition sys_with (rel : RepositoryRelease) (get : option error) : repository.Sys :=
  {| repository.sys_url_Parse := fun s =>
       if String.eqb s "https://ghe.example.com/api/v3/" then
         (Some {| Host := "ghe.example.com"; RequestURI := "/api/v3/" |}, None)
       else (None, Some (Errorf "parse error"));
     repository.sys_GetLatestRelease := fun _ _ _ => (Some rel, None);
     repository.sys_http_Get := fun _ =>
       match get with
       | Some e => (None, Some e)
       | None => (Some {| rd_data := exampleData; rd_err := None |}, None)
       end;
     repository.sys_OpenFile_fault := fun _ _ => None;
     repository.sys_Write_count := fun _ data => length data |}.

Definition sys_ok : repository.Sys := sys_with release1 None.
Definition sys_no_artifact : repository.Sys := sys_with release2 None.
Definition sys_get_fails : repository.Sys :=
  sys_with release1 (Some (Errorf "connection reset")).

Definition oldConfig : repository.RepositoryConfig :=
  {| repository.cfg_Provider := repository.GITHUB;
     repository.cfg_Token := "token"; repository.cfg_Endpoint := "";
     repository.cfg_Owner := "linyows"; repository.cfg_Name := "dewy";
     repository.cfg_Artifact := "app-linux.tar.gz" |}.

(** The earlier repository before and after a [Fetch] that found [asset1],
    and one whose endpoint does not parse. *)
Definition old_g0 : repository.GithubReleaseRepository :=
  {| repository.token := "token"; repository.endpoint := "";
     repository.owner := "linyows"; repository.name := "dewy";
     repository.artifact := "app-linux.tar.gz"; repository.downloadURL := "" |}.
Definition old_g1 : repository.GithubReleaseRepository :=
  repository.set_downloadURL exampleURL old_g0.
Definition old_g_bad : repository.GithubReleaseRepository :=
  {| repository.token := "token"; repository.endpoint := "::not a url";
     repository.owner := "linyows"; repository.name := "dewy";
     repository.artifact := "app-linux.tar.gz"; repository.downloadURL := "" |}.

(** A working directory that holds a longer file under the artifact's
    name. *)
Definition disk0 : repository.Disk :=
  {| repository.files :=
       {["app-linux.tar.gz" := list_byte_of_string "a longer, older archive"]};
     repository.calls := [] |}.

End Examples2.

(** * Properties *)

(** ** Strings: replacing separators and printing integers *)

Lemma string_app_cons (c : ascii) (a b : string) :
  String c a +:+ b = String c (a +:+ b).
Proof. reflexivity. Qed.

Lemma ReplaceSlash_app (a b : string) :
  ReplaceSlash (a +:+ b) = ReplaceSlash a +:+ ReplaceSlash b.
Proof.
  induction a as [|c a IH]; simpl; [reflexivity|].
  now rewrite IH.
Qed.

(** No separator is left after the replacement. *)
Lemma ReplaceSlash_no_slash (s : string) :
  ~ In "/"%char (list_ascii_of_string (ReplaceSlash s)).
Proof.
  induction s as [|c s IH]; simpl; [tauto|].
  intros [Hc|Hin]; [|tauto].
  destruct (Ascii.eqb_spec c "/") as [->|Hne]; [discriminate|congruence].
Qed.

Lemma ReplaceSlash_uint (d : Decimal.uint) :
  ReplaceSlash (NilEmpty.string_of_uint d) = NilEmpty.string_of_uint d.
Proof. induction d; simpl; congruence. Qed.

Lemma ReplaceSlash_fmt_d (n : Z) : ReplaceSlash (fmt_d n) = fmt_d n.
Proof.
  unfold fmt_d.
  destruct (Z.to_int n) as [d|d]; simpl.
  - destruct d; try apply ReplaceSlash_uint; reflexivity.
  - f_equal. destruct d; try apply ReplaceSlash_uint; reflexivity.
Qed.

Lemma fmt_d_inj (a b : Z) : fmt_d a = fmt_d b -> a = b.
Proof.
  unfold fmt_d. intros Heq.
  assert (Hnn : forall n, NilZero.int_of_string
            (NilZero.string_of_int (Z.to_int n)) = Some (Z.to_int n)).
  { intros n. apply NilZero.isi; destruct n; simpl; try discriminate;
      intros [= Hnil]; now apply DecimalPos.Unsigned.to_uint_nonnil in Hnil. }
  pose proof (Hnn a) as Ha. rewrite Heq, Hnn in Ha.
  injection Ha as Ha.
  rewrite <- (DecimalZ.of_to a), <- (DecimalZ.of_to b). now rewrite Ha.
Qed.

Lemma string_app_length (a b : string) :
  String.length (a +:+ b) = (String.length a + String.length b)%nat.
Proof. induction a; simpl; [reflexivity|]. now rewrite IHa. Qed.

Lemma string_app_inv_tail (a b x : string) : a +:+ x = b +:+ x -> a = b.
Proof.
  revert b. induction a as [|c a IH]; intros [|c' b] Heq; simpl in Heq.
  - reflexivity.
  - apply (f_equal String.length) in Heq.
    change (String c' (b +:+ x)) with (String c' b +:+ x) in Heq.
    rewrite !string_app_length in Heq. cbn [String.length] in Heq. lia.
  - apply (f_equal String.length) in Heq.
    change (String c (a +:+ x)) with (String c a +:+ x) in Heq.
    rewrite !string_app_length in Heq. cbn [String.length] in Heq. lia.
  - injection Heq as -> Heq. f_equal. now apply IH.
Qed.

Lemma string_app_inv_head (x a b : string) : x +:+ a = x +:+ b -> a = b.
Proof. induction x; simpl; [easy|]. intros [= H]. auto. Qed.

Lemma string_app_assoc (a b c : string) : (a +:+ b) +:+ c = a +:+ (b +:+ c).
Proof.
  induction a; [reflexivity|].
  rewrite !string_app_cons. f_equal. exact IHa.
Qed.

(** The key, piece by piece. *)
Lemma formatCacheKey_pieces (host : string) (unix : Z) (uri : string) :
  repo.formatCacheKey host unix uri =
  ReplaceSlash host +:+ "--" +:+ fmt_d unix +:+ "-" +:+ ReplaceSlash uri.
Proof.
  unfold repo.formatCacheKey.
  rewrite !ReplaceSlash_app, ReplaceSlash_fmt_d. reflexivity.
Qed.

(** ** The cache key ([setCacheKey]) *)

(** C4, as the spec gives the scenario: the key has a single dash between
    timestamp and path. The code yields another string. *)
Lemma cache_key_scenario_single_dash :
  repo.formatCacheKey "github.com" 1672531200
    "/releases/download/v1.2.3/app-linux.tar.gz"
  <> "github.com--1672531200-releases-download-v1.2.3-app-linux.tar.gz".
Proof. vm_compute. discriminate. Qed.

(** C4 (amended): when the download URL parses, [setCacheKey] sets the key
    to [host--<unix time>-<request URI>] with every ["/"] rewritten to
    ["-"], the leading ["/"] of the request URI included; for host
    [github.com], request URI [/releases/download/v1.2.3/app-linux.tar.gz]
    and unix time [1672531200] the key is
    [github.com--1672531200--releases-download-v1.2.3-app-linux.tar.gz]. *)
Theorem setCacheKey_format (env : Env) (g : repo.GithubRelease) (u : URL) :
  url_Parse env (repo.downloadURL g) = (Some u, None) ->
  (exists g',
     repo.setCacheKey env g = Ret (g', None) /\
     repo.cacheKey g' =
       ReplaceSlash (Host u) +:+ "--" +:+ fmt_d (Unix (repo.updatedAt g))
         +:+ "-" +:+ ReplaceSlash (RequestURI u) /\
     ~ In "/"%char (list_ascii_of_string (repo.cacheKey g'))) /\
  repo.formatCacheKey "github.com" 1672531200
    "/releases/download/v1.2.3/app-linux.tar.gz"
  = "github.com--1672531200--releases-download-v1.2.3-app-linux.tar.gz".
Proof.
  intros Hparse. split; [|reflexivity].
  unfold repo.setCacheKey. rewrite Hparse. simpl.
  eexists. split; [reflexivity|]. simpl. split.
  - apply formatCacheKey_pieces.
  - apply ReplaceSlash_no_slash.
Qed.

Lemma setCacheKey_format_witness :
  exists g',
    repo.setCacheKey Examples.env_ok Examples.g1 = Ret (g', None) /\
    repo.cacheKey g' =
      "github.com--1672531200--releases-download-v1.2.3-app-linux.tar.gz".
Proof.
  destruct (proj1 (setCacheKey_format Examples.env_ok Examples.g1
                     {| Host := "github.com";
                        RequestURI := "/releases/download/v1.2.3/app-linux.tar.gz" |}
                     eq_refl))
    as (g' & Hset & Hkey & _).
  exists g'. split; [exact Hset|]. rewrite Hkey. reflexivity.
Defined.

(** C5, as stated: triples that differ in one component have different
    keys. Two request paths that differ only in a separator against a dash
    share their key. *)
Lemma cache_key_not_injective :
  ~ (forall (h h' : string) (t t' : Z) (p p' : string),
       (h, t, p) <> (h', t', p') ->
       repo.formatCacheKey h t p <> repo.formatCacheKey h' t' p').
Proof.
  intros Hinj.
  apply (Hinj "github.com" "github.com" 1 1 "/a/b" "/a-b").
  - discriminate.
  - reflexivity.
Qed.

(** C5 (amended): the key is a function of (host, request URI, unix time):
    equal triples give equal keys. Triples that differ only in the
    timestamp give different keys; triples that differ only in the host, or
    only in the request URI, give different keys exactly when the two hosts
    (request URIs) still differ after every ["/"] is rewritten to ["-"]. *)
Theorem cache_key_separation (h h' : string) (t t' : Z) (p p' : string) :
  ((h, t, p) = (h', t', p') ->
     repo.formatCacheKey h t p = repo.formatCacheKey h' t' p') /\
  (repo.formatCacheKey h t p = repo.formatCacheKey h t' p <-> t = t') /\
  (repo.formatCacheKey h t p = repo.formatCacheKey h' t p <->
     ReplaceSlash h = ReplaceSlash h') /\
  (repo.formatCacheKey h t p = repo.formatCacheKey h t p' <->
     ReplaceSlash p = ReplaceSlash p').
Proof.
  rewrite !formatCacheKey_pieces. repeat split.
  - now intros [= -> -> ->].
  - intros Heq. apply string_app_inv_head in Heq.
    apply (string_app_inv_head "--") in Heq.
    rewrite <- !string_app_assoc in Heq.
    apply string_app_inv_tail in Heq.
    apply string_app_inv_tail in Heq.
    now apply fmt_d_inj.
  - now intros ->.
  - intros Heq. now apply string_app_inv_tail in Heq.
  - now intros ->.
  - intros Heq. apply string_app_inv_head in Heq.
    apply (string_app_inv_head "--") in Heq.
    apply string_app_inv_head in Heq.
    now apply (string_app_inv_head "-") in Heq.
  - now intros ->.
Qed.

(** ** [GetDeploySourceKey] *)

Section DeployKey.
Variable env : Env.
Import repo.

Lemma keysLoop_same (ck : string) (keys : list string) :
  ck ∈ keys -> keysLoop ck ck keys = None.
Proof.
  induction keys as [|key rest IH]; intros Hin.
  - now apply not_elem_of_nil in Hin.
  - simpl. rewrite String.eqb_refl. simpl.
    destruct (String.eqb_spec key ck) as [->|Hne]; [reflexivity|].
    apply IH. apply elem_of_cons in Hin as [->|Hin]; [congruence|exact Hin].
Qed.

Lemma keysLoop_other (cur ck : string) (keys : list string) :
  cur <> ck -> ck ∈ keys -> keysLoop cur ck keys = Some true.
Proof.
  intros Hcur. induction keys as [|key rest IH]; intros Hin.
  - now apply not_elem_of_nil in Hin.
  - simpl. destruct (String.eqb_spec cur ck) as [->|_]; [congruence|]. simpl.
    destruct (String.eqb_spec key ck) as [->|Hne]; [reflexivity|].
    apply IH. apply elem_of_cons in Hin as [->|Hin]; [congruence|exact Hin].
Qed.

Lemma keysLoop_absent (cur ck : string) (keys : list string) :
  ck ∉ keys -> keysLoop cur ck keys = Some false.
Proof.
  induction keys as [|key rest IH]; intros Hin; [reflexivity|].
  simpl. apply not_elem_of_cons in Hin as [Hne Hin].
  destruct (String.eqb_spec key ck) as [->|_]; [congruence|].
  rewrite andb_false_r. now apply IH.
Qed.

(** What the two reads at the head of [GetDeploySourceKey] leave behind. *)
Lemma cache_Read_world (key : string) (w w1 : World) r :
  cache_Read env key w = (r, w1) -> w1 = emit (EvCacheRead key) w.
Proof.
  unfold cache_Read. intros Heq.
  repeat case_match; now inversion Heq.
Qed.

Lemma cache_List_world (w w1 : World) r :
  cache_List env w = (r, w1) -> w1 = emit EvCacheList w.
Proof.
  unfold cache_List. intros Heq.
  repeat case_match; now inversion Heq.
Qed.

(** The branch of [GetDeploySourceKey] for a key that is current. *)
Lemma GetDeploySourceKey_same (g : GithubRelease) (w w1 w2 : World)
    (cur : bytes) (rerr : option error) (keys : list string) :
  cache_Read env currentKey w = (Ret (cur, rerr), w1) ->
  cache_List env w1 = (Ret (keys, None), w2) ->
  string_of_list_byte cur = cacheKey g ->
  cacheKey g ∈ keys ->
  GetDeploySourceKey env g w = (Ret ("", Some NoNeedToDeploy), w2).
Proof.
  intros Hread Hlist Hcur Hin.
  unfold GetDeploySourceKey, mbind, M_bind. rewrite Hread, Hlist.
  rewrite Hcur, keysLoop_same by exact Hin. reflexivity.
Qed.

(** C1: when the pointer read equals the fresh key and the key is listed,
    [GetDeploySourceKey] returns the error "No need to deploy"; it reads
    the pointer and lists the keys and does nothing else: no download, no
    write, the store and the deployment tree as they were. *)
Theorem GetDeploySourceKey_no_need (g : GithubRelease) (w w1 w2 : World)
    (cur : bytes) (rerr : option error) (keys : list string) :
  cache_Read env currentKey w = (Ret (cur, rerr), w1) ->
  cache_List env w1 = (Ret (keys, None), w2) ->
  string_of_list_byte cur = cacheKey g ->
  cacheKey g ∈ keys ->
  GetDeploySourceKey env g w = (Ret ("", Some NoNeedToDeploy), w2) /\
  events w2 = events w ++ [EvCacheRead currentKey; EvCacheList] /\
  cache w2 = cache w /\
  cache w2 !! currentKey = cache w !! currentKey /\
  symlinks w2 = symlinks w /\ slots w2 = slots w /\ dirs w2 = dirs w.
Proof.
  intros Hread Hlist Hcur Hin.
  pose proof (cache_Read_world _ _ _ _ Hread) as ->.
  pose proof (cache_List_world _ _ _ Hlist) as ->.
  split.
  - eapply GetDeploySourceKey_same; eauto.
  - simpl. rewrite <- app_assoc. repeat split; reflexivity.
Qed.


(** [download]: the calls it makes and what it leaves in the store. The
    asset endpoint is asked once; at most one GET follows, of the URL the
    endpoint returned; the bytes are written under the key last of all. *)
Lemma download_shape (g : GithubRelease) (w : World) :
  let k := cacheKey g in
  let wA := emit (EvDownloadReleaseAsset (owner g) (name g) (assetID g)) w in
  exists res w' gets writes,
    download env g w = (res, w') /\
    events w' = events wA ++ gets ++ writes /\
    symlinks w' = symlinks w /\ slots w' = slots w /\ dirs w' = dirs w /\
    (gets = [] \/ exists url, gets = [EvHTTPGet url]) /\
    ((writes = [] /\ cache w' = cache w /\
      ((exists e, res = Ret (Some e)) \/ exists m, res = Panic m)) \/
     (exists b e, writes = [EvCacheWrite k b] /\ cache w' = cache w /\
        res = Ret (Some e)) \/
     (exists b, writes = [EvCacheWrite k b] /\
        cache w' = <[k := b]> (cache w) /\ res = Ret None /\
        exists r0 url r,
          github_DownloadReleaseAsset env w (owner g) (name g) (assetID g)
            = (r0, url, None) /\
          (if String.eqb url "" then r0 = Some r /\ gets = []
           else http_Get env wA url = (Some r, None) /\ gets = [EvHTTPGet url]) /\
          rd_err r = None /\ b = rd_data r)).
Proof.
  intros k wA.
  unfold download, downloadReleaseAsset, httpGet, mbind, M_bind, mret, M_ret.
  destruct (github_DownloadReleaseAsset env w (owner g) (name g) (assetID g))
    as [[r0 url] [e|]] eqn:Hdl.
  { exists (Ret (Some e)), wA, [], []. rewrite !app_nil_r.
    repeat split; eauto 10. }
  fold wA.
  destruct (String.eqb url "") eqn:Hurl.
  - (* the endpoint served the bytes itself *)
    unfold liftRes, io_Copy, mbind, Res_bind, deref.
    destruct r0 as [r|].
    2:{ exists (Panic nilDeref), wA, [], []. rewrite !app_nil_r.
        repeat split; eauto 10. }
    destruct (rd_err r) as [e|] eqn:Hrd.
    { exists (Ret (Some e)), wA, [], []. rewrite !app_nil_r.
      repeat split; eauto 10. }
    unfold cache_Write.
    destruct (kvs_Write_fault env wA (cacheKey g) (rd_data r)) as [e|] eqn:Hw.
    + eexists _, _, [], [EvCacheWrite k (rd_data r)].
      repeat split; eauto 10.
    + eexists _, _, [], [EvCacheWrite k (rd_data r)].
      split; [reflexivity|]. repeat split; eauto.
      right. right. exists (rd_data r). repeat split.
      exists (Some r), url, r. rewrite Hurl. repeat split; eauto.
  - (* the endpoint answered with a URL to fetch *)
    destruct (http_Get env wA url) as [body [e|]] eqn:Hget.
    { exists (Ret (Some e)), (emit (EvHTTPGet url) wA), [EvHTTPGet url], [].
      rewrite !app_nil_r. repeat split; eauto 10. }
    unfold liftRes, io_Copy, mbind, Res_bind, deref.
    destruct body as [r|].
    2:{ exists (Panic nilDeref), (emit (EvHTTPGet url) wA), [EvHTTPGet url], [].
        rewrite !app_nil_r. repeat split; eauto 10. }
    destruct (rd_err r) as [e|] eqn:Hrd.
    { exists (Ret (Some e)), (emit (EvHTTPGet url) wA), [EvHTTPGet url], [].
      rewrite !app_nil_r. repeat split; eauto 10. }
    unfold cache_Write.
    destruct (kvs_Write_fault env (emit (EvHTTPGet url) wA) (cacheKey g) (rd_data r))
      as [e|] eqn:Hw.
    + eexists _, _, [EvHTTPGet url], [EvCacheWrite k (rd_data r)].
      split; [reflexivity|]. simpl. rewrite <- !app_assoc.
      repeat split; eauto 10.
    + eexists _, _, [EvHTTPGet url], [EvCacheWrite k (rd_data r)].
      split; [reflexivity|]. simpl. rewrite <- !app_assoc.
      repeat split; eauto.
      right. right. exists (rd_data r). repeat split.
      exists r0, url, r. rewrite Hurl. repeat split; eauto.
Qed.

(** C2 (amended): when the fresh key is listed and differs from the pointer
    read, [GetDeploySourceKey] makes no download: after the read and the
    listing its one further call is the write of the fresh key under
    [current.txt]. If the store accepts the write, the pointer holds the
    fresh key and the fresh key is returned; if the store refuses it, the
    store is as it was and the error of the write is returned. *)
Theorem GetDeploySourceKey_cached (g : GithubRelease) (w w1 w2 : World)
    (cur : bytes) (rerr : option error) (keys : list string) :
  cache_Read env currentKey w = (Ret (cur, rerr), w1) ->
  cache_List env w1 = (Ret (keys, None), w2) ->
  string_of_list_byte cur <> cacheKey g ->
  cacheKey g ∈ keys ->
  let ptr := list_byte_of_string (cacheKey g) in
  let w3 := emit (EvCacheWrite currentKey ptr) w2 in
  events w3 =
    events w ++ [EvCacheRead currentKey; EvCacheList; EvCacheWrite currentKey ptr] /\
  match kvs_Write_fault env w2 currentKey ptr with
  | None =>
      GetDeploySourceKey env g w =
        (Ret (cacheKey g, None), set_cache (<[currentKey := ptr]> (cache w)) w3)
  | Some e =>
      GetDeploySourceKey env g w = (Ret ("", Some e), w3) /\ cache w3 = cache w
  end.
Proof.
  intros Hread Hlist Hcur Hin ptr w3.
  pose proof (cache_Read_world _ _ _ _ Hread) as Hw1.
  pose proof (cache_List_world _ _ _ Hlist) as Hw2.
  split.
  - subst w3 w2 w1. simpl. now rewrite <- !app_assoc.
  - unfold GetDeploySourceKey, mbind, M_bind. rewrite Hread, Hlist.
    rewrite keysLoop_other by assumption. simpl.
    unfold mret, M_ret, cache_Write. fold ptr.
    destruct (kvs_Write_fault env w2 currentKey ptr) as [e|].
    + split; [reflexivity|]. subst w3 w2 w1. reflexivity.
    + subst w3 w2 w1. reflexivity.
Qed.


Lemma keysLoop_true_in (cur ck : string) (keys : list string) :
  keysLoop cur ck keys = Some true -> ck ∈ keys.
Proof.
  induction keys as [|key rest IH]; simpl; [discriminate|].
  destruct (String.eqb cur ck && String.eqb key ck); [discriminate|].
  destruct (String.eqb_spec key ck) as [->|_]; intros Hk.
  - apply elem_of_cons. now left.
  - apply elem_of_cons. right. now apply IH.
Qed.

(** When [GetDeploySourceKey] returns a key, the store holds bytes under
    it and points at it; the deployment tree is not touched. *)
Lemma GetDeploySourceKey_returns (g : GithubRelease) (w w' : World) (k : string) :
  GetDeploySourceKey env g w = (Ret (k, None), w') ->
  k = cacheKey g /\
  cache w' !! currentKey = Some (list_byte_of_string k) /\
  is_Some (cache w' !! k) /\
  symlinks w' = symlinks w /\ slots w' = slots w /\ dirs w' = dirs w.
Proof.
  unfold GetDeploySourceKey, mbind, M_bind.
  destruct (cache_Read env currentKey w) as [[[cur rerr]|m] w1] eqn:Hread;
    [|discriminate].
  pose proof (cache_Read_world _ _ _ _ Hread) as Hw1.
  destruct (cache_List env w1) as [[[keys [e|]]|m] w2] eqn:Hlist;
    try discriminate.
  pose proof (cache_List_world _ _ _ Hlist) as Hw2.
  assert (Hkeys : keys = elements (dom (cache w))).
  { unfold cache_List in Hlist. destruct (kvs_List_fault env w1); [discriminate|].
    subst w1. now inversion Hlist. }
  destruct (keysLoop (string_of_list_byte cur) (cacheKey g) keys)
    as [found|] eqn:Hloop; [|discriminate].
  destruct found; simpl.
  - (* already cached *)
    apply keysLoop_true_in in Hloop. subst keys.
    apply elem_of_elements, elem_of_dom in Hloop.
    unfold mret, M_ret, cache_Write.
    destruct (kvs_Write_fault env w2 currentKey _); [discriminate|].
    intros [= <- <-]. subst w2 w1. simpl.
    split; [reflexivity|]. split; [apply lookup_insert_eq|].
    split; [|auto].
    destruct (decide (currentKey = cacheKey g)) as [<-|Hne].
    + rewrite lookup_insert_eq. eauto.
    + now rewrite lookup_insert_ne.
  - (* downloaded *)
    destruct (download_shape g w2)
      as (res & wd & gets & writes & Hd & _ & Hs & Hsl & Hdi & _ & Hcases).
    rewrite Hd.
    destruct Hcases as [(_ & _ & [[e ->]|[m ->]])|[(b & e & _ & _ & ->)
                                         |(b & _ & Hc & -> & _)]];
      try discriminate.
    unfold mret, M_ret, cache_Write.
    destruct (kvs_Write_fault env wd currentKey _); [discriminate|].
    intros [= <- <-]. simpl. rewrite Hs, Hsl, Hdi, Hc. subst w2 w1. simpl.
    split; [reflexivity|]. split; [apply lookup_insert_eq|].
    split; [|auto].
    destruct (decide (currentKey = cacheKey g)) as [<-|Hne].
    + rewrite lookup_insert_eq. eauto.
    + rewrite lookup_insert_ne by exact Hne. rewrite lookup_insert_eq. eauto.
Qed.

End DeployKey.

Lemma GetDeploySourceKey_no_need_witness :
  repo.GetDeploySourceKey Examples.env_ok Examples.g1 Examples.w_current
  = (Ret ("", Some repo.NoNeedToDeploy),
     emit EvCacheList (emit (EvCacheRead repo.currentKey) Examples.w_current)).
Proof.
  refine (proj1 (GetDeploySourceKey_no_need Examples.env_ok Examples.g1
            Examples.w_current _ _
            (list_byte_of_string Examples.exampleKey) None
            (elements (dom (cache Examples.w_current))) _ _ _ _)).
  - vm_compute. reflexivity.
  - vm_compute. reflexivity.
  - vm_compute. reflexivity.
  - apply (bool_decide_unpack _). vm_compute. reflexivity.
Defined.

(** C2, as stated: the fresh key is returned in every state in which it is
    listed and is not the pointer. It is not when the store refuses the
    write of the pointer. *)
Lemma GetDeploySourceKey_cached_write_refused :
  ~ (forall env g w w1 w2 cur rerr keys,
       cache_Read env repo.currentKey w = (Ret (cur, rerr), w1) ->
       cache_List env w1 = (Ret (keys, None), w2) ->
       string_of_list_byte cur <> repo.cacheKey g ->
       repo.cacheKey g ∈ keys ->
       exists w', repo.GetDeploySourceKey env g w = (Ret (repo.cacheKey g, None), w')).
Proof.
  intros Hclaim.
  destruct (Hclaim Examples.env_write_refused Examples.g1 Examples.w_cached
              _ _ (list_byte_of_string Examples.oldKey) None
              (elements (dom (cache Examples.w_cached)))
              eq_refl eq_refl) as [w' Hw'].
  - vm_compute. discriminate.
  - apply (bool_decide_unpack _). vm_compute. reflexivity.
  - vm_compute in Hw'. discriminate.
Qed.

Lemma GetDeploySourceKey_cached_witness :
  repo.GetDeploySourceKey Examples.env_ok Examples.g1 Examples.w_cached =
  (Ret (Examples.exampleKey, None),
   set_cache (<[repo.currentKey := list_byte_of_string Examples.exampleKey]>
                (cache Examples.w_cached))
     (emit (EvCacheWrite repo.currentKey (list_byte_of_string Examples.exampleKey))
        (emit EvCacheList (emit (EvCacheRead repo.currentKey) Examples.w_cached)))).
Proof.
  refine (proj2 (GetDeploySourceKey_cached Examples.env_ok Examples.g1
            Examples.w_cached _ _
            (list_byte_of_string Examples.oldKey) None
            (elements (dom (cache Examples.w_cached))) eq_refl eq_refl _ _)).
  - vm_compute. discriminate.
  - apply (bool_decide_unpack _). vm_compute. reflexivity.
Defined.



(** ** [latest] and [Fetch] *)

Section Resolve.
Variable env : Env.
Import repo.

(** The loop of [latest] returns at the first release that is not a draft,
    and what it returns is the variable [r], not the release. *)
Lemma latestLoop_first_non_draft (r : option RepositoryRelease)
    (drafts : list RepositoryRelease) (v : RepositoryRelease)
    (rest : list RepositoryRelease) :
  Forall (fun d => rel_Draft d = Some true) drafts ->
  rel_Draft v = Some false ->
  latestLoop r (drafts ++ v :: rest) = Ret (Some (r, None)).
Proof.
  intros Hdrafts Hv. induction Hdrafts as [|d ds Hd _ IH]; simpl.
  - now rewrite Hv.
  - rewrite Hd. simpl. exact IH.
Qed.

(** In pre-release mode, with a release on the first page that is not a
    draft, [latest] returns a nil release with a nil error and [Fetch]
    panics on the first field it reads. *)
Lemma Fetch_prerelease_nil (g : GithubRelease) (w : World)
    (drafts : list RepositoryRelease) (v : RepositoryRelease)
    (rest : list RepositoryRelease) :
  prerelease g = true ->
  github_ListReleases env w (owner g) (name g) 1 = (drafts ++ v :: rest, None) ->
  Forall (fun d => rel_Draft d = Some true) drafts ->
  rel_Draft v = Some false ->
  let w' := emit (EvListReleases (owner g) (name g) 1) w in
  latest env g w = (Ret (None, None), w') /\
  Fetch env g w = (Panic nilDeref, w').
Proof.
  intros Hpre Hlist Hdrafts Hv w'.
  assert (Hlatest : latest env g w = (Ret (None, None), w')).
  { unfold latest. rewrite Hpre, Hlist.
    now rewrite (latestLoop_first_non_draft None drafts v rest). }
  split; [exact Hlatest|].
  unfold Fetch, mbind, M_bind. now rewrite Hlatest.
Qed.

Lemma fetchLoop_no_match (release : RepositoryRelease)
    (assets : list ReleaseAsset) (g : GithubRelease) :
  Forall (fun a => exists n, asset_Name a = Some n /\ n <> artifact g) assets ->
  fetchLoop release assets g = Ret g.
Proof.
  induction 1 as [|a rest (n & Hn & Hne) _ IH]; simpl; [reflexivity|].
  rewrite Hn. simpl.
  destruct (String.eqb_spec n (artifact g)) as [->|_]; [congruence|exact IH].
Qed.

(** C7 (amended): for a release none of whose assets is named as the
    configured artifact, [Fetch] reports no missing artifact. It records
    the id and the page URL of the release, leaves the download URL, the
    tag, the asset id and the timestamp as they were, and sets the cache
    key from that unchanged download URL: it returns nil when the URL
    parses, and the parser's error otherwise. *)
Theorem Fetch_without_artifact (g : GithubRelease) (w w1 : World)
    (rel : RepositoryRelease) (id : Z) (url : string) :
  latest env g w = (Ret (Some rel, None), w1) ->
  rel_ID rel = Some id ->
  rel_HTMLURL rel = Some url ->
  Forall (fun a => exists n, asset_Name a = Some n /\ n <> artifact g)
    (rel_Assets rel) ->
  let g1 := set_release id url g in
  downloadURL g1 = downloadURL g /\ releaseTag g1 = releaseTag g /\
  assetID g1 = assetID g /\ updatedAt g1 = updatedAt g /\
  match url_Parse env (downloadURL g) with
  | (_, Some e) => Fetch env g w = (Ret (g1, Some e), w1)
  | (Some u, None) =>
      Fetch env g w =
        (Ret (set_cacheKey
                (formatCacheKey (Host u) (Unix (updatedAt g)) (RequestURI u)) g1,
              None), w1)
  | (None, None) => Fetch env g w = (Panic nilDeref, w1)
  end.
Proof.
  intros Hlatest Hid Hurl Hassets g1.
  repeat (split; [reflexivity|]).
  assert (HF : Fetch env g w = (setCacheKey env g1, w1)).
  { unfold Fetch, mbind, M_bind. rewrite Hlatest. unfold liftRes. simpl.
    rewrite Hid. simpl. rewrite Hurl. simpl.
    now rewrite fetchLoop_no_match by exact Hassets. }
  rewrite HF. unfold setCacheKey.
  change (downloadURL g1) with (downloadURL g).
  destruct (url_Parse env (downloadURL g)) as [[u|] [e|]]; reflexivity.
Qed.

End Resolve.

(** C6 at a first page that holds one release, not a draft: [Fetch] in
    pre-release mode selects no release and populates no field: it panics
    on the nil release that [latest] returned. *)
Theorem Fetch_prerelease_panics :
  repo.latest Examples.env_ok Examples.g0_pre Examples.w_old =
    (Ret (None, None), emit (EvListReleases "linyows" "dewy" 1) Examples.w_old) /\
  repo.Fetch Examples.env_ok Examples.g0_pre Examples.w_old =
    (Panic nilDeref, emit (EvListReleases "linyows" "dewy" 1) Examples.w_old).
Proof. split; reflexivity. Qed.

(** Outside pre-release mode the same release is found and its fields are
    taken over. *)
Example Fetch_latest_release :
  fst (repo.Fetch Examples.env_ok Examples.g0 Examples.w_old)
  = Ret (Examples.g1, None).
Proof. vm_compute. reflexivity. Qed.

(** C7, as stated: a release without the artifact makes [Fetch] fail. It
    returns nil on the release of [env_no_artifact], whose only asset is
    the checksum file. *)
Lemma Fetch_without_artifact_succeeds :
  ~ (forall env g w w1 rel,
       repo.latest env g w = (Ret (Some rel, None), w1) ->
       (forall a, a ∈ rel_Assets rel -> asset_Name a <> Some (repo.artifact g)) ->
       exists g' e w', repo.Fetch env g w = (Ret (g', Some e), w')).
Proof.
  intros Hclaim.
  destruct (Hclaim Examples.env_no_artifact Examples.g0 Examples.w_old
              _ Examples.release2 eq_refl) as (g' & e & w' & Hfetch).
  - intros a Ha. apply list_elem_of_singleton in Ha as ->. discriminate.
  - vm_compute in Hfetch. discriminate.
Qed.

Lemma Fetch_without_artifact_witness :
  repo.Fetch Examples.env_no_artifact Examples.g0 Examples.w_old =
  (Ret (repo.set_cacheKey "---62135596800--"
          (repo.set_release 102
             "https://github.com/linyows/dewy/releases/tag/v1.2.4" Examples.g0),
        None),
   emit (EvGetLatestRelease "linyows" "dewy") Examples.w_old).
Proof.
  refine (proj2 (proj2 (proj2 (proj2
    (Fetch_without_artifact Examples.env_no_artifact Examples.g0
       Examples.w_old _ Examples.release2 102
       "https://github.com/linyows/dewy/releases/tag/v1.2.4"
       eq_refl eq_refl eq_refl _))))).
  repeat constructor. exists "checksums.txt". split; [reflexivity|discriminate].
Defined.

(** ** [deploy] and [preserve] *)

Section Deploy.
Variable env : Env.
Context {R : Type}.
Import dewy.

Local Ltac link_done Hsym :=
  repeat split; eauto;
  first [ simpl; now rewrite <- !app_assoc
        | left; simpl; exact Hsym
        | right; simpl; now rewrite ?Hsym
        | simpl; rewrite ?Hsym; apply insert_delete_eq
        | simpl; now rewrite ?Hsym ].

(** The run of [deploy], case by case: either [preserve] fails, and then
    nothing but the slot directory was touched, or the slot is populated
    and the link is replaced after that. *)
Lemma deploy_shape (d : Dewy R) (key : string) (w : World) :
  let p := filepath_Join [cache_GetDir env; key] in
  let dst := filepath_Join [root d; releasesDir; time_Now_Format env w] in
  let linkTo := filepath_Join [root d; symlinkDir] in
  exists r w',
    deploy env d key w = (Ret r, w') /\ cache w' = cache w /\
    ((exists e w1,
        preserve env d p w = (Ret ("", Some e), w1) /\ w' = w1 /\
        r = Some e /\ symlinks w' = symlinks w /\ slots w' = slots w /\
        (events w' = events w ++ [EvMkdirAll dst] \/
         events w' = events w ++ [EvMkdirAll dst; EvExtractArchive p dst])) \/
     (exists w1,
        preserve env d p w = (Ret (dst, None), w1) /\
        events w1 = events w ++ [EvMkdirAll dst; EvExtractArchive p dst] /\
        slots w1 !! dst = Some p /\ dst ∈ dirs w1 /\
        symlinks w1 = symlinks w /\ slots w' = slots w1 /\
        events w' =
          events w1 ++ [EvLstat linkTo] ++
            match symlinks w !! linkTo with
            | Some _ => [EvRemove linkTo]
            | None => []
            end ++ [EvSymlink dst linkTo] /\
        match r with
        | None => symlinks w' = <[linkTo := dst]> (symlinks w)
        | Some _ =>
            symlinks w' = symlinks w \/ symlinks w' = delete linkTo (symlinks w)
        end)).
Proof.
  intros p dst linkTo.
  unfold deploy, preserve, time_Now_UTC_Format, os_MkdirAll, kvs_ExtractArchive,
    mbind, M_bind, mret, M_ret.
  fold p. fold dst. fold linkTo.
  destruct (os_MkdirAll_fault env w dst) as [e|] eqn:Hmk.
  { eexists _, _. split; [reflexivity|]. split; [reflexivity|].
    left. eexists _, _. repeat split; eauto. }
  destruct (kvs_ExtractArchive_fault env _ p dst) as [e|] eqn:Hex.
  { eexists _, _. split; [reflexivity|]. split; [reflexivity|].
    left. eexists _, _. split; [reflexivity|]. repeat split; eauto.
    right. simpl. now rewrite <- app_assoc. }
  set (w1 := set_slots _ _).
  assert (Hw1 : events w1 = events w ++ [EvMkdirAll dst; EvExtractArchive p dst]
                /\ slots w1 !! dst = Some p /\ dst ∈ dirs w1
                /\ symlinks w1 = symlinks w).
  { subst w1. simpl. rewrite <- app_assoc. repeat split.
    - apply lookup_insert_eq.
    - set_solver. }
  destruct Hw1 as (Hev1 & Hslot & Hdir & Hsym).
  unfold os_Lstat, os_Remove, os_Symlink. rewrite Hsym.
  destruct (symlinks w !! linkTo) as [old|] eqn:Hold.
  - (* a link is there: remove it, then make the new one *)
    destruct (os_Remove_fault env _ linkTo) as [e|] eqn:Hrm.
    + (* the removal failed: the link stays and the new one cannot be made *)
      destruct (os_Symlink_fault env _ dst linkTo) as [e'|] eqn:Hsl;
        [|simpl; rewrite ?Hsym, Hold];
        (eexists _, _; split; [reflexivity|]; split; [reflexivity|]);
        right; exists w1; link_done Hsym.
    + destruct (os_Symlink_fault env _ dst linkTo) as [e'|] eqn:Hsl;
        [|simpl; rewrite ?Hsym, lookup_delete_eq];
        (eexists _, _; split; [reflexivity|]; split; [reflexivity|]);
        right; exists w1; link_done Hsym.
  - (* no link yet *)
    destruct (os_Symlink_fault env _ dst linkTo) as [e'|] eqn:Hsl;
      [|simpl; rewrite ?Hsym, Hold];
      (eexists _, _; split; [reflexivity|]; split; [reflexivity|]);
      right; exists w1; link_done Hsym.
Qed.

(** C8: [deploy] replaces the link [current] only after the new slot is
    populated. Either making the slot directory or extracting the archive
    fails: then [deploy] returns that error, makes no call on the link and
    leaves every link as it was. Or the slot directory exists and holds the
    extracted archive: only then, and after that, is the old link removed
    (if there is one) and the new link made, and when [deploy] returns nil
    the link names the new slot. *)
Theorem deploy_link_after_slot (d : Dewy R) (key : string) (w : World) :
  let p := filepath_Join [cache_GetDir env; key] in
  let dst := filepath_Join [root d; releasesDir; time_Now_Format env w] in
  let linkTo := filepath_Join [root d; symlinkDir] in
  exists r w',
    deploy env d key w = (Ret r, w') /\
    ((exists e,
        fst (preserve env d p w) = Ret ("", Some e) /\
        r = Some e /\ symlinks w' = symlinks w /\
        (events w' = events w ++ [EvMkdirAll dst] \/
         events w' = events w ++ [EvMkdirAll dst; EvExtractArchive p dst])) \/
     (exists w1,
        preserve env d p w = (Ret (dst, None), w1) /\
        events w1 = events w ++ [EvMkdirAll dst; EvExtractArchive p dst] /\
        slots w1 !! dst = Some p /\ dst ∈ dirs w1 /\
        symlinks w1 = symlinks w /\
        events w' =
          events w1 ++ [EvLstat linkTo] ++
            match symlinks w !! linkTo with
            | Some _ => [EvRemove linkTo]
            | None => []
            end ++ [EvSymlink dst linkTo] /\
        slots w' !! dst = Some p /\
        match r with
        | None => symlinks w' !! linkTo = Some dst
        | Some _ => True
        end)).
Proof.
  intros p dst linkTo. subst p dst linkTo.
  destruct (deploy_shape d key w) as (r & w' & Hd & _ & Hcases).
  exists r, w'. split; [exact Hd|].
  destruct Hcases as [(e & w1 & Hp & _ & Hr & Hs & _ & Hev)
                     |(w1 & Hp & Hev1 & Hslot & Hdir & Hs & Hsl & Hev & Hr)].
  - left. exists e. rewrite Hp. auto.
  - right. exists w1. repeat split; try assumption.
    + now rewrite Hsl.
    + destruct r; [exact I|]. rewrite Hr. apply lookup_insert_eq.
Qed.

End Deploy.

(** A deploy that goes through: the link is moved from the old slot to the
    new one. *)
Example deploy_moves_link :
  let '(r, w') := dewy.deploy Examples.env_ok Examples.dewy0 Examples.exampleKey
                    Examples.w_cached in
  r = Ret None /\
  symlinks Examples.w_cached !! "/srv/app/current" = Some Examples.oldSlot /\
  symlinks w' !! "/srv/app/current" = Some "/srv/app/releases/20230101T000000Z".
Proof. vm_compute. repeat split; reflexivity. Qed.

(** A deploy whose extraction fails: the link stays on the old slot. *)
Example deploy_extract_fails :
  let '(r, w') := dewy.deploy Examples.env_extract_fails Examples.dewy0
                    Examples.exampleKey Examples.w_cached in
  r = Ret (Some (Errorf "unsupported archive")) /\
  symlinks w' !! "/srv/app/current" = Some Examples.oldSlot.
Proof. vm_compute. repeat split; reflexivity. Qed.

(** ** [Run]: the server lifecycle *)

Section Lifecycle.
Variable env : Env.
Context {R : Type} {HR : dewy.Repository R}.
Import dewy.

Lemma filter_lifecycle_snoc (l extra : list Event) :
  List.forallb (fun e => negb (isLifecycle e)) extra = true ->
  List.filter isLifecycle (l ++ extra) = List.filter isLifecycle l.
Proof.
  intros Hex. rewrite List.filter_app.
  assert (Hnil : List.filter isLifecycle extra = []).
  { induction extra as [|e extra IH]; [reflexivity|].
    simpl in *. apply andb_prop in Hex as [He Hex].
    destruct (isLifecycle e); [discriminate|]. now apply IH. }
  rewrite Hnil. apply app_nil_r.
Qed.

Lemma filter_starter_lifecycle (l : list Event) :
  List.filter isStarter (List.filter isLifecycle l) = List.filter isStarter l.
Proof.
  induction l as [|e l IH]; [reflexivity|].
  destruct e; simpl; rewrite ?IH; reflexivity.
Qed.

(** [deploy] makes no call on the managed server. *)
Lemma deploy_lifecycle (d : Dewy R) (key : string) (w w' : World) r :
  deploy env d key w = (r, w') ->
  List.filter isLifecycle (events w') = List.filter isLifecycle (events w).
Proof.
  intros Hd.
  destruct (deploy_shape env d key w) as (r0 & w0 & Hd0 & _ & Hcases).
  rewrite Hd in Hd0. injection Hd0 as -> ->.
  destruct Hcases as [(e & w1 & _ & _ & _ & _ & _ & [-> | ->])
                     |(w1 & _ & Hev1 & _ & _ & _ & _ & Hev & _)].
  - now apply filter_lifecycle_snoc.
  - now apply filter_lifecycle_snoc.
  - rewrite Hev, Hev1, <- app_assoc. apply filter_lifecycle_snoc.
    now destruct (symlinks w !! _).
Qed.

(** A cycle of [Run] in managed-server mode, case by case: it ends before
    the server is touched, leaving the flag as it was, or [deploy] returned
    nil and the server is started or signalled. *)
Lemma Run_shape (d : Dewy R) (w : World) :
  cfg_Command (config d) = SERVER ->
  exists res w',
    Run env d w = (res, w') /\
    ((List.filter isLifecycle (events w') = List.filter isLifecycle (events w) /\
      match res with
      | Ret (d', _) =>
          isServerRunning d' = isServerRunning d /\ config d' = config d /\
          root d' = root d
      | Panic _ => True
      end) \/
     (exists (dC : Dewy R) key wN wD (d' : Dewy R) err,
        deploy env dC key wN = (Ret None, wD) /\
        List.filter isLifecycle (events wD) = List.filter isLifecycle (events w) /\
        res = Ret (d', err) /\ isServerRunning d' = true /\
        config d' = config d /\ root d' = root d /\
        if isServerRunning d then
          events w' = events wD ++
            [EvNotify "Server restarting"; EvSignal (os_Getpid env) SIGHUP]
        else
          events w' = events wD ++
            [EvNotify "Server starting"; EvGoStarter (cfg_Starter (config d))])).
Proof.
  intros Hmode.
  unfold Run, callRepo, mbind, M_bind, mret, M_ret. simpl.
  destruct (repo_Fetch _ (cache w)) as [[r1 c1] [e|]].
  { eexists _, _. split; [reflexivity|]. left. simpl. auto. }
  simpl. destruct (repo_IsDownloadNecessary r1 c1) as [[r2 c2] necessary].
  destruct necessary; simpl.
  2:{ eexists _, _. split; [reflexivity|]. left. simpl. auto. }
  destruct (repo_Download r2 c2) as [[r3 c3] [key [e|]]].
  { eexists _, _. split; [reflexivity|]. left. simpl. auto. }
  simpl.
  set (wN := emit (EvNotify _) _). set (dC := set_repository (Some r3) _).
  destruct (deploy env dC key wN) as [[[e|]|m] wD] eqn:Hdeploy.
  - eexists _, _. split; [reflexivity|]. left.
    rewrite (deploy_lifecycle _ _ _ _ _ Hdeploy). subst wN. simpl.
    split; [|auto]. now apply filter_lifecycle_snoc.
  - assert (HwD : List.filter isLifecycle (events wD)
                  = List.filter isLifecycle (events w)).
    { rewrite (deploy_lifecycle _ _ _ _ _ Hdeploy). subst wN. simpl.
      now apply filter_lifecycle_snoc. }
    simpl. rewrite Hmode.
    destruct (isServerRunning d) eqn:Hrun.
    + unfold notify, restartServer, finalizeDeploy, callRepo, mbind, M_bind,
        mret, M_ret. simpl.
      destruct (repo_Record r3 _) as [[r4 c4] rec].
      eexists _, _. split; [reflexivity|]. right.
      exists dC, key, wN, wD. eexists _, _.
      split; [exact Hdeploy|]. split; [exact HwD|].
      split; [reflexivity|]. simpl. rewrite Hrun.
      repeat split; auto. now rewrite <- app_assoc.
    + unfold notify, startServer, finalizeDeploy, callRepo, mbind, M_bind,
        mret, M_ret. simpl.
      destruct (repo_Record r3 _) as [[r4 c4] rec].
      eexists _, _. split; [reflexivity|]. right.
      exists dC, key, wN, wD. eexists _, _.
      split; [exact Hdeploy|]. split; [exact HwD|].
      split; [reflexivity|]. simpl.
      repeat split; auto. now rewrite <- app_assoc.
  - eexists _, _. split; [reflexivity|]. left.
    rewrite (deploy_lifecycle _ _ _ _ _ Hdeploy). subst wN. simpl.
    split; [|auto]. now apply filter_lifecycle_snoc.
Qed.

Lemma Run_lifecycle_inv (c : Config) (d d' : Dewy R) (w w' : World) err :
  cfg_Command c = SERVER ->
  lifecycle_inv env c d w ->
  Run env d w = (Ret (d', err), w') ->
  lifecycle_inv env c d' w'.
Proof.
  intros Hmode [Hc Hinv] Hrun. subst c.
  destruct (Run_shape d w Hmode) as (res & w0 & Hrun0 & Hcases).
  rewrite Hrun in Hrun0. injection Hrun0 as <- <-.
  destruct Hcases as [(Hev & Hflag & Hcfg & _)
                     |(dC & key & wN & wD & d1 & err1 & _ & HwD & Hres & Hflag
                       & Hcfg & _ & Hev)].
  - split; [exact Hcfg|]. now rewrite Hev, Hflag.
  - injection Hres as <- <-. split; [exact Hcfg|]. right.
    split; [exact Hflag|].
    destruct Hinv as [(Hoff & Hnone)|(Hon & sigs & Hsigs & Hall)].
    + rewrite Hoff in Hev. exists [].
      rewrite Hev, List.filter_app, HwD, Hnone. simpl. auto.
    + rewrite Hon in Hev. exists (sigs ++ [EvSignal (os_Getpid env) SIGHUP]).
      rewrite Hev, List.filter_app, HwD, Hsigs. simpl.
      split; [reflexivity|]. apply Forall_app. auto.
Qed.

Lemma ticks_lifecycle_inv (c : Config) (n : nat) :
  cfg_Command c = SERVER ->
  forall (d d' : Dewy R) (w w' : World),
    lifecycle_inv env c d w ->
    ticks env n d w = (Ret d', w') ->
    lifecycle_inv env c d' w'.
Proof.
  intros Hmode. induction n as [|n IH]; intros d d' w w' Hinv Hticks.
  - now injection Hticks as <- <-.
  - simpl in Hticks. unfold mbind, M_bind in Hticks.
    destruct (Run env d w) as [[[d1 err]|m] w1] eqn:Hrun; [|discriminate].
    eapply IH; [|exact Hticks].
    eapply Run_lifecycle_inv; eauto.
Qed.

(** C9: in managed-server mode,
    - a cycle whose deploy returns nil while the server is not running sets
      the flag and launches the starter, with no signal; while the server
      is running it signals SIGHUP to the own process, launches no starter
      and leaves the flag set;
    - no cycle clears the flag, and a cycle sets it only in this way, after
      a deploy of its own that returned nil: the first such cycle therefore
      finds the server not running;
    - over any number of cycles from a server that is not running, the
      calls on the server are none, or one launch of the starter followed
      by SIGHUP signals only. *)
Theorem server_lifecycle (d : Dewy R) (w : World) :
  cfg_Command (config d) = SERVER ->
  (forall r1 c1 r2 c2 r3 c3 key wD,
     repo_Fetch (NewRepository (cfg_Repository (config d))) (cache w)
       = (r1, c1, None) ->
     repo_IsDownloadNecessary r1 c1 = (r2, c2, true) ->
     repo_Download r2 c2 = (r3, c3, (key, None)) ->
     deploy env (set_repository (Some r3) d) key
       (emit (EvNotify ("New release <" +:+ repo_ReleaseHTMLURL r3 +:+ "|" +:+
                        repo_ReleaseTag r3 +:+ "> was downloaded"))
          (set_cache c3 w))
       = (Ret None, wD) ->
     exists d' err w',
       Run env d w = (Ret (d', err), w') /\
       isServerRunning d' = true /\
       if isServerRunning d then
         events w' = events wD ++
           [EvNotify "Server restarting"; EvSignal (os_Getpid env) SIGHUP]
       else
         err = None /\
         events w' = events wD ++
           [EvNotify "Server starting"; EvGoStarter (cfg_Starter (config d))]) /\
  (forall d' err w',
     Run env d w = (Ret (d', err), w') ->
     (isServerRunning d = true ->
        isServerRunning d' = true /\
        List.filter isStarter (events w') = List.filter isStarter (events w)) /\
     (isServerRunning d = false -> isServerRunning d' = true ->
        exists (dC : Dewy R) key wN wD,
          deploy env dC key wN = (Ret None, wD) /\
          List.filter isLifecycle (events wD) = List.filter isLifecycle (events w) /\
          events w' = events wD ++
            [EvNotify "Server starting"; EvGoStarter (cfg_Starter (config d))])) /\
  (forall n d' w',
     isServerRunning d = false ->
     List.filter isLifecycle (events w) = [] ->
     ticks env n d w = (Ret d', w') ->
     (isServerRunning d' = false /\ List.filter isLifecycle (events w') = []) \/
     (isServerRunning d' = true /\
      exists sigs,
        List.filter isLifecycle (events w')
          = EvGoStarter (cfg_Starter (config d)) :: sigs /\
        Forall (fun e => e = EvSignal (os_Getpid env) SIGHUP) sigs)).
Proof.
  intros Hmode. split; [|split].
  - intros r1 c1 r2 c2 r3 c3 key wD Hfetch Hnec Hdl Hdeploy.
    unfold Run, callRepo, mbind, M_bind, mret, M_ret. simpl.
    rewrite Hfetch. simpl. rewrite Hnec. simpl. rewrite Hdl. simpl.
    change (set_cache c3 (set_cache c2 (set_cache c1 w))) with (set_cache c3 w).
    match goal with
    | |- context [deploy env ?dC key ?wN] =>
        change (deploy env dC key wN) with
          (deploy env (set_repository (Some r3) d) key wN)
    end.
    rewrite Hdeploy. simpl. rewrite Hmode.
    destruct (isServerRunning d) eqn:Hrun.
    + unfold notify, restartServer, finalizeDeploy, callRepo, mbind, M_bind,
        mret, M_ret. simpl.
      destruct (repo_Record r3 _) as [[r4 c4] rec].
      eexists _, _, _. split; [reflexivity|]. simpl.
      split; [exact Hrun|]. now rewrite <- app_assoc.
    + unfold notify, startServer, finalizeDeploy, callRepo, mbind, M_bind,
        mret, M_ret. simpl.
      destruct (repo_Record r3 _) as [[r4 c4] rec].
      eexists _, _, _. split; [reflexivity|]. simpl.
      repeat split. now rewrite <- app_assoc.
  - intros d' err w' Hrun.
    destruct (Run_shape d w Hmode) as (res & w0 & Hrun0 & Hcases).
    rewrite Hrun in Hrun0. injection Hrun0 as <- <-.
    destruct Hcases as [(Hev & Hflag & _)
                       |(dC & key & wN & wD & d1 & err1 & Hdep & HwD & Hres
                         & Hflag & _ & _ & Hev)].
    + split.
      * intros Hon. split; [congruence|].
        apply (f_equal (List.filter isStarter)) in Hev.
        rewrite !filter_starter_lifecycle in Hev. exact Hev.
      * intros Hoff Hon. congruence.
    + injection Hres as <- <-. split.
      * intros Hon. split; [exact Hflag|]. rewrite Hon in Hev.
        rewrite Hev, List.filter_app. simpl. rewrite app_nil_r.
        apply (f_equal (List.filter isStarter)) in HwD.
        rewrite !filter_starter_lifecycle in HwD. exact HwD.
      * intros Hoff _. rewrite Hoff in Hev. exists dC, key, wN, wD. auto.
  - intros n d' w' Hoff Hnone Hticks.
    assert (Hinv : lifecycle_inv env (config d) d w) by (split; auto).
    destruct (ticks_lifecycle_inv (config d) n Hmode d d' w w' Hinv Hticks)
      as [_ Hinv'].
    exact Hinv'.
Qed.

End Lifecycle.

Lemma server_lifecycle_witness :
  exists d' w',
    dewy.Run Examples.env_ok Examples.dewy0 Examples.w_old = (Ret (d', None), w') /\
    dewy.isServerRunning Examples.dewy0 = false /\
    dewy.isServerRunning d' = true /\
    List.filter isLifecycle (events w')
      = [EvGoStarter (dewy.cfg_Starter Examples.config_server)].
Proof.
  destruct (proj1 (server_lifecycle Examples.env_ok (HR := Examples.stubRepository)
                     Examples.dewy0
                     Examples.w_old eq_refl)
              tt (cache Examples.w_old) tt (cache Examples.w_old) tt
              (<[repo.currentKey := list_byte_of_string Examples.exampleKey]>
                 (<[Examples.exampleKey := Examples.exampleData]>
                    (cache Examples.w_old)))
              Examples.exampleKey _ eq_refl eq_refl eq_refl eq_refl)
    as (d' & err & w' & Hrun & Hflag & Herr & Hev).
  exists d', w'. subst err. split; [exact Hrun|].
  split; [reflexivity|]. split; [exact Hflag|].
  rewrite Hev. vm_compute. reflexivity.
Defined.

(** Two cycles in a row: the starter is launched by the first, the second
    signals the process. *)
Example two_cycles :
  let '(r, w') := dewy.ticks Examples.env_ok 2 Examples.dewy0 Examples.w_old in
  (exists d', r = Ret d' /\ dewy.isServerRunning d' = true) /\
  List.filter isLifecycle (events w')
    = [EvGoStarter (dewy.cfg_Starter Examples.config_server); EvSignal 4242 SIGHUP].
Proof. vm_compute. split; [eexists; split; reflexivity|reflexivity]. Qed.

(** ** A deploy that fails after the pointer was written *)

Section Retry.
Variable env : Env.
Context {R : Type}.
Import repo dewy.


End Retry.



(** * Further properties of [github_release.go] *)

Section ResolveMore.
Variable env : Env.
Import repo.

Lemma latestLoop_all_drafts (r : option RepositoryRelease)
    (rr : list RepositoryRelease) :
  Forall (fun v => rel_Draft v = Some true) rr ->
  latestLoop r rr = Ret None.
Proof.
  induction 1 as [|v rest Hv _ IH]; simpl; [reflexivity|].
  rewrite Hv. simpl. exact IH.
Qed.

(** In pre-release mode, when the first page holds drafts only (or is
    empty), [latest] asks for the latest release next and answers what the
    release host answers there. *)
Theorem latest_drafts_fall_back (g : GithubRelease) (w : World)
    (rr : list RepositoryRelease) :
  prerelease g = true ->
  github_ListReleases env w (owner g) (name g) 1 = (rr, None) ->
  Forall (fun v => rel_Draft v = Some true) rr ->
  let w1 := emit (EvListReleases (owner g) (name g) 1) w in
  let w2 := emit (EvGetLatestRelease (owner g) (name g)) w1 in
  latest env g w =
    (Ret match github_GetLatestRelease env w1 (owner g) (name g) with
         | (_, Some e) => (None, Some e)
         | (r, None) => (r, None)
         end, w2) /\
  events w2 = events w ++ [EvListReleases (owner g) (name g) 1;
                           EvGetLatestRelease (owner g) (name g)].
Proof.
  intros Hpre Hlist Hdrafts w1 w2. split.
  - unfold latest. rewrite Hpre, Hlist, latestLoop_all_drafts by exact Hdrafts.
    unfold getLatestRelease. fold w1.
    now destruct (github_GetLatestRelease env w1 (owner g) (name g)) as [r [e|]].
  - subst w2 w1. simpl. now rewrite <- app_assoc.
Qed.

(** In pre-release mode, when the listing of the releases fails, [Fetch]
    returns that error with the resolver as it was; the latest release is
    not asked for. *)
Theorem Fetch_list_releases_error (g : GithubRelease) (w : World)
    (rr : list RepositoryRelease) (e : error) :
  prerelease g = true ->
  github_ListReleases env w (owner g) (name g) 1 = (rr, Some e) ->
  Fetch env g w = (Ret (g, Some e), emit (EvListReleases (owner g) (name g) 1) w).
Proof.
  intros Hpre Hlist.
  unfold Fetch, latest, mbind, M_bind. rewrite Hpre, Hlist. reflexivity.
Qed.

Lemma fetchLoop_first_match (release : RepositoryRelease)
    (before after : list ReleaseAsset) (a : ReleaseAsset) (g : GithubRelease)
    (url tag : string) (id : Z) (t : Timestamp) :
  Forall (fun v => exists n, asset_Name v = Some n /\ n <> artifact g) before ->
  asset_Name a = Some (artifact g) ->
  asset_BrowserDownloadURL a = Some url ->
  rel_TagName release = Some tag ->
  asset_ID a = Some id ->
  asset_UpdatedAt a = Some t ->
  fetchLoop release (before ++ a :: after) g = Ret (set_asset url tag id t g).
Proof.
  intros Hbefore Hname Hurl Htag Hid Ht.
  induction Hbefore as [|v rest (n & Hn & Hne) _ IH]; simpl.
  - rewrite Hname. simpl. rewrite String.eqb_refl, Hurl. simpl.
    rewrite Htag. simpl. rewrite Hid. simpl. now rewrite Ht.
  - rewrite Hn. simpl.
    destruct (String.eqb_spec n (artifact g)) as [->|_]; [congruence|exact IH].
Qed.

(** When [latest] returns a release, [Fetch] takes the download URL, the
    asset id and the timestamp from the first asset named as the artifact,
    whatever follows it in the list, the tag, the id and the page URL from
    the release, and sets the cache key from the asset's URL and
    timestamp. *)
Theorem Fetch_first_matching_asset (g : GithubRelease) (w w1 : World)
    (rel : RepositoryRelease) (before after : list ReleaseAsset)
    (a : ReleaseAsset) (rid aid : Z) (page url tag : string) (t : Timestamp)
    (u : URL) :
  latest env g w = (Ret (Some rel, None), w1) ->
  rel_ID rel = Some rid ->
  rel_HTMLURL rel = Some page ->
  rel_TagName rel = Some tag ->
  rel_Assets rel = before ++ a :: after ->
  Forall (fun v => exists n, asset_Name v = Some n /\ n <> artifact g) before ->
  asset_Name a = Some (artifact g) ->
  asset_BrowserDownloadURL a = Some url ->
  asset_ID a = Some aid ->
  asset_UpdatedAt a = Some t ->
  url_Parse env url = (Some u, None) ->
  exists g',
    Fetch env g w = (Ret (g', None), w1) /\
    releaseID g' = rid /\ releaseURL g' = page /\ releaseTag g' = tag /\
    assetID g' = aid /\ downloadURL g' = url /\ updatedAt g' = t /\
    cacheKey g' = formatCacheKey (Host u) (Unix t) (RequestURI u) /\
    owner g' = owner g /\ name g' = name g /\ artifact g' = artifact g /\
    prerelease g' = prerelease g.
Proof.
  intros Hlatest Hrid Hpage Htag Hassets Hbefore Hname Hurl Haid Ht Hparse.
  eexists. split.
  - unfold Fetch, mbind, M_bind. rewrite Hlatest. unfold liftRes. simpl.
    rewrite Hrid. simpl. rewrite Hpage. simpl. rewrite Hassets.
    rewrite (fetchLoop_first_match rel before after a _ url tag aid t)
      by assumption.
    simpl. unfold setCacheKey. simpl. rewrite Hparse. simpl. reflexivity.
  - simpl. repeat split; reflexivity.
Qed.

(** When the store cannot be listed, [GetDeploySourceKey] returns the error
    of the listing: it downloads nothing and writes nothing. *)
Theorem GetDeploySourceKey_list_error (g : GithubRelease) (w : World) (e : error) :
  kvs_List_fault env (emit (EvCacheRead currentKey) w) = Some e ->
  exists w',
    GetDeploySourceKey env g w = (Ret ("", Some e), w') /\
    events w' = events w ++ [EvCacheRead currentKey; EvCacheList] /\
    cache w' = cache w /\ symlinks w' = symlinks w.
Proof.
  intros Hlist. eexists. split.
  - unfold GetDeploySourceKey, mbind, M_bind, cache_Read, cache_List.
    destruct (kvs_Read_fault env w currentKey);
      [|destruct (cache w !! currentKey)]; rewrite Hlist; reflexivity.
  - simpl. rewrite <- app_assoc. auto.
Qed.

(** The idempotent poll: once [GetDeploySourceKey] has returned a key, the
    next call of the same resolver on the store it left, if it can read the
    pointer and list the keys, returns "No need to deploy" after these two
    calls and nothing else. *)
Theorem GetDeploySourceKey_twice (g : GithubRelease) (w w1 : World) (k : string) :
  GetDeploySourceKey env g w = (Ret (k, None), w1) ->
  kvs_Read_fault env w1 currentKey = None ->
  kvs_List_fault env (emit (EvCacheRead currentKey) w1) = None ->
  GetDeploySourceKey env g w1 =
    (Ret ("", Some NoNeedToDeploy),
     emit EvCacheList (emit (EvCacheRead currentKey) w1)).
Proof.
  intros Hfirst Hread Hlist.
  destruct (GetDeploySourceKey_returns env g w w1 k Hfirst)
    as (Hk & Hptr & Hbytes & _).
  eapply GetDeploySourceKey_same.
  - unfold cache_Read. rewrite Hread, Hptr. reflexivity.
  - unfold cache_List. rewrite Hlist. reflexivity.
  - rewrite <- Hk. apply string_of_list_byte_of_string.
  - simpl. rewrite <- Hk. now apply elem_of_elements, elem_of_dom.
Qed.

Lemma keysLoop_false_notin (cur ck : string) (keys : list string) :
  keysLoop cur ck keys = Some false -> ck ∉ keys.
Proof.
  induction keys as [|key rest IH]; simpl; intros Hloop.
  - apply not_elem_of_nil.
  - destruct (String.eqb cur ck && String.eqb key ck); [discriminate|].
    destruct (String.eqb_spec key ck) as [->|Hne]; [discriminate|].
    apply not_elem_of_cons. split; [congruence|now apply IH].
Qed.

(** The store after [download], by its result. *)
Lemma download_store_cases (g : GithubRelease) (w w' : World) res :
  download env g w = (res, w') ->
  match res with
  | Ret None => exists b, cache w' = <[cacheKey g := b]> (cache w)
  | _ => cache w' = cache w
  end.
Proof.
  intros Hd.
  destruct (download_shape env g w)
    as (res0 & w0 & gets & writes & Hd0 & _ & _ & _ & _ & _ & Hcases).
  rewrite Hd in Hd0. injection Hd0 as <- <-.
  destruct Hcases as [(_ & Hc & [[e ->]|[m ->]])|[(b & e & _ & Hc & ->)
                                                 |(b & _ & Hc & -> & _)]];
    eauto.
Qed.

(** [download] writes the store only when it returns nil, and then exactly
    one entry, under the cache key; a download that fails or panics leaves
    the store as it was. *)
Theorem download_store (g : GithubRelease) (w w' : World) res :
  download env g w = (res, w') ->
  match res with
  | Ret None => exists b, cache w' = <[cacheKey g := b]> (cache w)
  | _ => cache w' = cache w
  end.
Proof. apply download_store_cases. Qed.

(** What [GetDeploySourceKey] leaves alone, whatever it returns: the links,
    the slots and the directories; every entry of the store other than the
    pointer and the entry of the cache key; and, when bytes are already
    stored under the cache key, these bytes. No key is removed. *)
Theorem GetDeploySourceKey_frame (g : GithubRelease) (w w' : World) res :
  GetDeploySourceKey env g w = (res, w') ->
  symlinks w' = symlinks w /\ slots w' = slots w /\ dirs w' = dirs w /\
  (forall key, key <> currentKey -> key <> cacheKey g ->
     cache w' !! key = cache w !! key) /\
  (forall key, is_Some (cache w !! key) -> is_Some (cache w' !! key)) /\
  (is_Some (cache w !! cacheKey g) -> cacheKey g <> currentKey ->
     cache w' !! cacheKey g = cache w !! cacheKey g).
Proof.
  unfold GetDeploySourceKey, mbind, M_bind.
  destruct (cache_Read env currentKey w) as [[[cur rerr]|m] w1] eqn:Hread.
  2:{ unfold cache_Read in Hread. repeat case_match; discriminate. }
  pose proof (cache_Read_world _ _ _ _ _ Hread) as Hw1.
  destruct (cache_List env w1) as [[[keys lerr]|m] w2] eqn:Hlist.
  2:{ unfold cache_List in Hlist. repeat case_match; discriminate. }
  pose proof (cache_List_world _ _ _ _ Hlist) as Hw2.
  assert (H2 : cache w2 = cache w /\ symlinks w2 = symlinks w /\
               slots w2 = slots w /\ dirs w2 = dirs w)
    by (subst w2 w1; auto).
  destruct H2 as (Hc2 & Hs2 & Hsl2 & Hd2).
  destruct lerr as [e|].
  { intros [= <- <-]. rewrite Hc2. repeat split; auto. }
  assert (Hkeys : keys = elements (dom (cache w))).
  { unfold cache_List in Hlist. destruct (kvs_List_fault env w1); [discriminate|].
    subst w1. now inversion Hlist. }
  destruct (keysLoop (string_of_list_byte cur) (cacheKey g) keys)
    as [found|] eqn:Hloop.
  2:{ intros [= <- <-]. rewrite Hc2. repeat split; auto. }
  assert (Hwrite : forall wd r wx,
            cache_Write env currentKey (list_byte_of_string (cacheKey g)) wd
              = (r, wx) ->
            (exists o, r = Ret o) /\
            symlinks wx = symlinks wd /\ slots wx = slots wd /\ dirs wx = dirs wd /\
            (forall key, key <> currentKey -> cache wx !! key = cache wd !! key) /\
            (forall key, is_Some (cache wd !! key) -> is_Some (cache wx !! key))).
  { intros wd r wx. unfold cache_Write.
    destruct (kvs_Write_fault env wd currentKey _); intros [= <- <-]; simpl.
    - repeat split; eauto.
    - repeat split; eauto.
      + intros key Hne. now rewrite lookup_insert_ne.
      + intros key Hsome.
        destruct (decide (currentKey = key)) as [<-|Hne].
        * rewrite lookup_insert_eq. eauto.
        * now rewrite lookup_insert_ne. }
  assert (Hend : forall wd res' w'',
            (let (r, wx) := cache_Write env currentKey
                              (list_byte_of_string (cacheKey g)) wd in
             match r with
             | Ret a =>
                 match a with
                 | Some e => fun w0 : World => (Ret ("", Some e), w0)
                 | None => fun w0 : World => (Ret (cacheKey g, None), w0)
                 end wx
             | Panic msg => (Panic msg, wx)
             end) = (res', w'') ->
            symlinks w'' = symlinks wd /\ slots w'' = slots wd /\ dirs w'' = dirs wd /\
            (forall key, key <> currentKey -> cache w'' !! key = cache wd !! key) /\
            (forall key, is_Some (cache wd !! key) -> is_Some (cache w'' !! key))).
  { intros wd res' w''.
    destruct (cache_Write env currentKey _ wd) as [r wx] eqn:Hcw.
    destruct (Hwrite wd r wx Hcw) as ([o ->] & Hrest).
    destruct o; intros [= <- <-]; exact Hrest. }
  destruct found; simpl.
  - (* the key is cached: only the pointer is written *)
    intros Hrun.
    destruct (Hend w2 _ _ Hrun) as (Hs & Hsl & Hd & Hother & Hkeep).
    rewrite Hc2 in Hother, Hkeep. rewrite Hs, Hsl, Hd.
    repeat split; auto.
  - (* not cached: the download, then the pointer *)
    apply keysLoop_false_notin in Hloop. subst keys.
    assert (Hnone : cache w !! cacheKey g = None).
    { apply not_elem_of_dom. intros Hin. apply Hloop. now apply elem_of_elements. }
    destruct (download env g w2) as [resd wd] eqn:Hdl.
    destruct (download_shape env g w2)
      as (res0 & w0 & gets & writes & Hd0 & _ & Hs & Hsl & Hd & _ & Hcases).
    rewrite Hdl in Hd0. injection Hd0 as <- <-.
    rewrite Hs2 in Hs. rewrite Hsl2 in Hsl. rewrite Hd2 in Hd.
    pose proof (download_store_cases g w2 wd resd Hdl) as Hstore.
    destruct resd as [[e|]|m].
    + intros [= <- <-]. rewrite Hstore, Hc2. repeat split; auto.
    + destruct Hstore as [b Hstore]. intros Hrun.
      destruct (Hend wd _ _ Hrun) as (Hs' & Hsl' & Hd' & Hother & Hkeep).
      rewrite Hstore, Hc2 in Hother, Hkeep. rewrite Hs', Hsl', Hd'.
      repeat split; auto.
      * intros key Hk1 Hk2. rewrite Hother by exact Hk1.
        now rewrite lookup_insert_ne.
      * intros key Hsome. apply Hkeep.
        destruct (decide (cacheKey g = key)) as [<-|Hne].
        -- rewrite lookup_insert_eq. eauto.
        -- now rewrite lookup_insert_ne.
      * intros [x Hx]. congruence.
    + intros [= <- <-]. rewrite Hstore, Hc2. repeat split; auto.
Qed.

End ResolveMore.

Lemma latest_drafts_fall_back_witness :
  repo.latest Examples2.env_drafts Examples.g0_pre Examples.w_old =
  (Ret (Some Examples.release1, None),
   emit (EvGetLatestRelease "linyows" "dewy")
     (emit (EvListReleases "linyows" "dewy" 1) Examples.w_old)).
Proof.
  refine (proj1 (latest_drafts_fall_back Examples2.env_drafts Examples.g0_pre
                   Examples.w_old [Examples2.draft1; Examples2.draft1]
                   eq_refl eq_refl _)).
  repeat constructor.
Defined.

Lemma Fetch_list_releases_error_witness :
  repo.Fetch Examples2.env_list_releases_fails Examples.g0_pre Examples.w_old =
  (Ret (Examples.g0_pre, Some (Errorf "401 Bad credentials")),
   emit (EvListReleases "linyows" "dewy" 1) Examples.w_old).
Proof.
  exact (Fetch_list_releases_error Examples2.env_list_releases_fails
           Examples.g0_pre Examples.w_old [] (Errorf "401 Bad credentials")
           eq_refl eq_refl).
Defined.

Lemma Fetch_first_matching_asset_witness :
  exists g',
    repo.Fetch Examples.env_ok Examples.g0 Examples.w_old
      = (Ret (g', None), emit (EvGetLatestRelease "linyows" "dewy") Examples.w_old) /\
    repo.assetID g' = 7 /\ repo.cacheKey g' = Examples.exampleKey.
Proof.
  destruct (Fetch_first_matching_asset Examples.env_ok Examples.g0 Examples.w_old
              _ Examples.release1 [Examples.otherAsset] [] Examples.asset1
              101 7 "https://github.com/linyows/dewy/releases/tag/v1.2.3"
              Examples.exampleURL "v1.2.3" {| Unix := 1672531200 |}
              {| Host := "github.com";
                 RequestURI := "/releases/download/v1.2.3/app-linux.tar.gz" |}
              eq_refl eq_refl eq_refl eq_refl eq_refl)
    as (g' & Hfetch & _ & _ & _ & Haid & _ & _ & Hkey & _); try reflexivity.
  - repeat constructor. exists "checksums.txt". split; [reflexivity|discriminate].
  - exists g'. split; [exact Hfetch|]. split; [exact Haid|].
    rewrite Hkey. reflexivity.
Defined.

Lemma GetDeploySourceKey_list_error_witness :
  fst (repo.GetDeploySourceKey Examples2.env_list_fails Examples.g1 Examples.w_old)
  = Ret ("", Some (Errorf "permission denied")).
Proof.
  destruct (GetDeploySourceKey_list_error Examples2.env_list_fails Examples.g1
              Examples.w_old (Errorf "permission denied") eq_refl)
    as (w' & Hrun & _).
  now rewrite Hrun.
Defined.

Lemma GetDeploySourceKey_twice_witness :
  exists w1,
    repo.GetDeploySourceKey Examples.env_ok Examples.g1 Examples.w_old
      = (Ret (Examples.exampleKey, None), w1) /\
    fst (repo.GetDeploySourceKey Examples.env_ok Examples.g1 w1)
      = Ret ("", Some repo.NoNeedToDeploy).
Proof.
  eexists. split; [reflexivity|].
  match goal with
  | |- fst (repo.GetDeploySourceKey _ _ ?w1) = _ =>
      rewrite (GetDeploySourceKey_twice Examples.env_ok Examples.g1
                 Examples.w_old w1 Examples.exampleKey eq_refl eq_refl eq_refl)
  end.
  reflexivity.
Defined.

Lemma download_store_witness :
  cache (snd (repo.download Examples.env_download_fails Examples.g1 Examples.w_old))
  = cache Examples.w_old.
Proof.
  exact (download_store Examples.env_download_fails Examples.g1 Examples.w_old
           _ _ eq_refl).
Defined.

Lemma GetDeploySourceKey_frame_witness :
  cache (snd (repo.GetDeploySourceKey Examples.env_ok Examples.g1 Examples.w_old))
    !! Examples.oldKey = cache Examples.w_old !! Examples.oldKey.
Proof.
  refine (proj1 (proj2 (proj2 (proj2
            (GetDeploySourceKey_frame Examples.env_ok Examples.g1 Examples.w_old
               _ _ eq_refl)))) Examples.oldKey _ _);
    vm_compute; discriminate.
Defined.

(** * Further properties of [dewy.go] *)

Section DeployMore.
Variable env : Env.
Context {R : Type}.
Import dewy.

(** What [deploy] leaves alone, whatever it returns: the cache store, every
    slot but the one it makes, every directory, and every link but
    [current]. No slot is removed. *)
Theorem deploy_frame (d : Dewy R) (key : string) (w w' : World) r :
  deploy env d key w = (r, w') ->
  let dst := filepath_Join [root d; releasesDir; time_Now_Format env w] in
  let linkTo := filepath_Join [root d; symlinkDir] in
  cache w' = cache w /\
  (forall s, s <> dst -> slots w' !! s = slots w !! s) /\
  (forall s, is_Some (slots w !! s) -> is_Some (slots w' !! s)) /\
  (forall p, p ∈ dirs w -> p ∈ dirs w') /\
  (forall l, l <> linkTo -> symlinks w' !! l = symlinks w !! l).
Proof.
  intros Hd dst linkTo. revert Hd.
  unfold deploy, preserve, time_Now_UTC_Format, os_MkdirAll, kvs_ExtractArchive,
    os_Lstat, os_Remove, os_Symlink, mbind, M_bind, mret, M_ret.
  fold dst. fold linkTo.
  assert (Hslot : forall (m : gmap string string) p s,
            is_Some (m !! s) -> is_Some (<[dst := p]> m !! s)).
  { intros m p s Hs. destruct (decide (dst = s)) as [<-|Hne].
    - rewrite lookup_insert_eq. eauto.
    - now rewrite lookup_insert_ne. }
  destruct (os_MkdirAll_fault env w dst).
  { intros [= <- <-]. simpl. repeat split; auto; try set_solver. }
  destruct (kvs_ExtractArchive_fault env _ _ dst).
  { intros [= <- <-]. simpl. repeat split; auto; try set_solver. }
  simpl.
  destruct (symlinks w !! linkTo) eqn:Hold.
  - destruct (os_Remove_fault env _ linkTo);
      (destruct (os_Symlink_fault env _ dst linkTo);
       [|simpl; rewrite ?Hold, ?lookup_delete_eq]);
      intros [= <- <-]; simpl; repeat split; auto; try set_solver;
      intros; rewrite ?lookup_insert_ne, ?lookup_delete_ne by congruence; auto.
  - destruct (os_Symlink_fault env _ dst linkTo); [|simpl; rewrite ?Hold];
      intros [= <- <-]; simpl; repeat split; auto; try set_solver;
      intros; rewrite ?lookup_insert_ne, ?lookup_delete_ne by congruence; auto.
Qed.

(** In an environment that refuses none of its calls, [deploy] returns nil:
    the slot directory exists and holds the archive of the key, and
    [current] names the slot, every other link being as it was. *)
Theorem deploy_succeeds (d : Dewy R) (key : string) (w : World) :
  let p := filepath_Join [cache_GetDir env; key] in
  let dst := filepath_Join [root d; releasesDir; time_Now_Format env w] in
  let linkTo := filepath_Join [root d; symlinkDir] in
  (forall x, os_MkdirAll_fault env x dst = None) ->
  (forall x, kvs_ExtractArchive_fault env x p dst = None) ->
  (forall x, os_Remove_fault env x linkTo = None) ->
  (forall x, os_Symlink_fault env x dst linkTo = None) ->
  exists w',
    deploy env d key w = (Ret None, w') /\
    symlinks w' = <[linkTo := dst]> (symlinks w) /\
    slots w' = <[dst := p]> (slots w) /\
    dirs w' = {[dst]} ∪ dirs w /\
    cache w' = cache w.
Proof.
  intros p dst linkTo Hmk Hex Hrm Hsl.
  unfold deploy, preserve, time_Now_UTC_Format, os_MkdirAll, kvs_ExtractArchive,
    os_Lstat, os_Remove, os_Symlink, mbind, M_bind, mret, M_ret.
  fold p. fold dst. fold linkTo.
  rewrite Hmk, Hex. simpl.
  destruct (symlinks w !! linkTo) eqn:Hold.
  - rewrite Hrm, Hsl. simpl. rewrite lookup_delete_eq.
    eexists. split; [reflexivity|]. simpl.
    repeat split; auto. apply insert_delete_eq.
  - rewrite Hsl. simpl. rewrite Hold.
    eexists. split; [reflexivity|]. simpl. auto.
Qed.

(** When the old link cannot be removed, [deploy] fails although the slot
    was populated: the error of the removal is dropped, the making of the
    new link fails on the name that is still taken, and [current] keeps
    naming the old slot. *)
Theorem deploy_remove_refused (d : Dewy R) (key : string) (w : World)
    (old : string) (e : error) :
  let p := filepath_Join [cache_GetDir env; key] in
  let dst := filepath_Join [root d; releasesDir; time_Now_Format env w] in
  let linkTo := filepath_Join [root d; symlinkDir] in
  symlinks w !! linkTo = Some old ->
  (forall x, os_MkdirAll_fault env x dst = None) ->
  (forall x, kvs_ExtractArchive_fault env x p dst = None) ->
  (forall x, os_Remove_fault env x linkTo = Some e) ->
  (forall x, os_Symlink_fault env x dst linkTo = None) ->
  exists w',
    deploy env d key w = (Ret (Some ErrExist), w') /\
    symlinks w' = symlinks w /\
    slots w' !! dst = Some p.
Proof.
  intros p dst linkTo Hold Hmk Hex Hrm Hsl.
  unfold deploy, preserve, time_Now_UTC_Format, os_MkdirAll, kvs_ExtractArchive,
    os_Lstat, os_Remove, os_Symlink, mbind, M_bind, mret, M_ret.
  fold p. fold dst. fold linkTo.
  rewrite Hmk, Hex. simpl. rewrite Hold, Hrm, Hsl. simpl. rewrite Hold.
  eexists. split; [reflexivity|]. simpl.
  split; [reflexivity|]. apply lookup_insert_eq.
Qed.

End DeployMore.

Section RunMore.
Variable env : Env.
Context {R : Type} {HR : dewy.Repository R}.
Import dewy.

(** A cycle outside managed-server mode makes no call on the server and
    leaves the flag and the configuration as they were. *)
Lemma Run_assets_cycle (d : Dewy R) (w w' : World) res :
  cfg_Command (config d) = ASSETS ->
  Run env d w = (res, w') ->
  List.filter isLifecycle (events w') = List.filter isLifecycle (events w) /\
  match res with
  | Ret (d', _) => isServerRunning d' = isServerRunning d /\ config d' = config d
  | Panic _ => True
  end.
Proof.
  intros Hmode.
  unfold Run, callRepo, mbind, M_bind, mret, M_ret. simpl.
  destruct (repo_Fetch _ (cache w)) as [[r1 c1] [e|]].
  { intros [= <- <-]. simpl. auto. }
  simpl. destruct (repo_IsDownloadNecessary r1 c1) as [[r2 c2] necessary].
  destruct necessary; simpl.
  2:{ intros [= <- <-]. simpl. auto. }
  destruct (repo_Download r2 c2) as [[r3 c3] [key [e|]]].
  { intros [= <- <-]. simpl. auto. }
  simpl.
  set (wN := emit (EvNotify _) _). set (dC := set_repository (Some r3) _).
  destruct (deploy env dC key wN) as [[[e|]|m] wD] eqn:Hdeploy;
    simpl; rewrite ?Hmode; intros [= <- <-];
    rewrite (deploy_lifecycle _ _ _ _ _ _ Hdeploy); subst wN; simpl;
    (split; [now apply filter_lifecycle_snoc|auto]).
Qed.

(** Outside managed-server mode no number of cycles starts or signals the
    server, and the flag stays as it was. *)
Theorem assets_mode_leaves_server (n : nat) (d d' : Dewy R) (w w' : World) :
  cfg_Command (config d) = ASSETS ->
  ticks env n d w = (Ret d', w') ->
  List.filter isLifecycle (events w') = List.filter isLifecycle (events w) /\
  isServerRunning d' = isServerRunning d.
Proof.
  revert d w. induction n as [|n IH]; intros d w Hmode Hticks.
  - injection Hticks as <- <-. auto.
  - simpl in Hticks. unfold mbind, M_bind in Hticks.
    destruct (Run env d w) as [[[d1 err]|m] w1] eqn:Hrun; [|discriminate].
    destruct (Run_assets_cycle d w w1 _ Hmode Hrun) as (Hev & Hflag & Hcfg).
    destruct (IH d1 w1) as (Hev' & Hflag'); [congruence|exact Hticks|].
    split; congruence.
Qed.

(** Outside managed-server mode a cycle ends with the deploy: when the
    deploy returns nil, [Run] returns nil and the repository is in the state
    its download left, so that no shipping is recorded. *)
Theorem Run_assets_skips_record (d : Dewy R) (w wD : World)
    (r1 r2 r3 : R) (c1 c2 c3 : gmap string bytes) (key : string) :
  cfg_Command (config d) = ASSETS ->
  repo_Fetch (NewRepository (cfg_Repository (config d))) (cache w)
    = (r1, c1, None) ->
  repo_IsDownloadNecessary r1 c1 = (r2, c2, true) ->
  repo_Download r2 c2 = (r3, c3, (key, None)) ->
  deploy env (set_repository (Some r3) d) key
    (emit (EvNotify ("New release <" +:+ repo_ReleaseHTMLURL r3 +:+ "|" +:+
                     repo_ReleaseTag r3 +:+ "> was downloaded"))
       (set_cache c3 w))
    = (Ret None, wD) ->
  Run env d w = (Ret (set_repository (Some r3) d, None), wD).
Proof.
  intros Hmode Hfetch Hnec Hdl Hdeploy.
  unfold Run, callRepo, mbind, M_bind, mret, M_ret. simpl.
  rewrite Hfetch. simpl. rewrite Hnec. simpl. rewrite Hdl. simpl.
  change (set_cache c3 (set_cache c2 (set_cache c1 w))) with (set_cache c3 w).
  match goal with
  | |- context [deploy env ?dC key ?wN] =>
      change (deploy env dC key wN) with
        (deploy env (set_repository (Some r3) d) key wN)
  end.
  rewrite Hdeploy. simpl. rewrite Hmode. reflexivity.
Qed.

(** A failing download is swallowed: [Run] returns nil, with no
    notification and no deploy; the links and the slots are as they were. *)
Theorem Run_download_error_swallowed (d : Dewy R) (w : World)
    (r1 r2 r3 : R) (c1 c2 c3 : gmap string bytes) (key : string) (e : error) :
  repo_Fetch (NewRepository (cfg_Repository (config d))) (cache w)
    = (r1, c1, None) ->
  repo_IsDownloadNecessary r1 c1 = (r2, c2, true) ->
  repo_Download r2 c2 = (r3, c3, (key, Some e)) ->
  exists w',
    Run env d w = (Ret (set_repository (Some r3) d, None), w') /\
    events w' = events w /\ symlinks w' = symlinks w /\ slots w' = slots w /\
    cache w' = c3.
Proof.
  intros Hfetch Hnec Hdl.
  unfold Run, callRepo, mbind, M_bind, mret, M_ret. simpl.
  rewrite Hfetch. simpl. rewrite Hnec. simpl. rewrite Hdl. simpl.
  eexists. split; [reflexivity|]. simpl. auto.
Qed.


(** When the deploy of a cycle fails, [Run] returns its error at once: the
    server is neither started nor signalled, the flag is as it was, and no
    shipping is recorded. *)
Theorem Run_deploy_error (d : Dewy R) (w wD : World)
    (r1 r2 r3 : R) (c1 c2 c3 : gmap string bytes) (key : string) (e : error) :
  repo_Fetch (NewRepository (cfg_Repository (config d))) (cache w)
    = (r1, c1, None) ->
  repo_IsDownloadNecessary r1 c1 = (r2, c2, true) ->
  repo_Download r2 c2 = (r3, c3, (key, None)) ->
  deploy env (set_repository (Some r3) d) key
    (emit (EvNotify ("New release <" +:+ repo_ReleaseHTMLURL r3 +:+ "|" +:+
                     repo_ReleaseTag r3 +:+ "> was downloaded"))
       (set_cache c3 w))
    = (Ret (Some e), wD) ->
  Run env d w = (Ret (set_repository (Some r3) d, Some e), wD) /\
  List.filter isLifecycle (events wD) = List.filter isLifecycle (events w).
Proof.
  intros Hfetch Hnec Hdl Hdeploy. split.
  - unfold Run, callRepo, mbind, M_bind, mret, M_ret. simpl.
    rewrite Hfetch. simpl. rewrite Hnec. simpl. rewrite Hdl. simpl.
    change (set_cache c3 (set_cache c2 (set_cache c1 w))) with (set_cache c3 w).
    match goal with
    | |- context [deploy env ?dC key ?wN] =>
        change (deploy env dC key wN) with
          (deploy env (set_repository (Some r3) d) key wN)
    end.
    rewrite Hdeploy. reflexivity.
  - rewrite (deploy_lifecycle _ _ _ _ _ _ Hdeploy). simpl.
    now apply filter_lifecycle_snoc.
Qed.

End RunMore.

Lemma deploy_frame_witness :
  fst (dewy.deploy Examples.env_ok Examples.dewy0 Examples.exampleKey
         Examples.w_cached) = Ret None /\
  cache (snd (dewy.deploy Examples.env_ok Examples.dewy0 Examples.exampleKey
                Examples.w_cached)) = cache Examples.w_cached.
Proof.
  split; [vm_compute; reflexivity|].
  exact (proj1 (deploy_frame Examples.env_ok Examples.dewy0 Examples.exampleKey
                  Examples.w_cached _ _ (surjective_pairing _))).
Defined.

Lemma deploy_succeeds_witness :
  exists w',
    dewy.deploy Examples.env_ok Examples.dewy0 Examples.exampleKey Examples.w_cached
      = (Ret None, w') /\
    symlinks w' =
      <[dewy.filepath_Join [dewy.root Examples.dewy0; dewy.symlinkDir] :=
          dewy.filepath_Join [dewy.root Examples.dewy0; dewy.releasesDir;
                              time_Now_Format Examples.env_ok Examples.w_cached]]>
        (symlinks Examples.w_cached).
Proof.
  destruct (deploy_succeeds Examples.env_ok Examples.dewy0 Examples.exampleKey
              Examples.w_cached (fun _ => eq_refl) (fun _ => eq_refl)
              (fun _ => eq_refl) (fun _ => eq_refl))
    as (w' & Hd & Hlinks & _).
  exists w'. split; [exact Hd|exact Hlinks].
Defined.

Lemma deploy_remove_refused_witness :
  exists w',
    dewy.deploy Examples2.env_remove_fails Examples.dewy0 Examples.exampleKey
      Examples.w_cached = (Ret (Some dewy.ErrExist), w') /\
    symlinks w' = symlinks Examples.w_cached.
Proof.
  assert (Hold : symlinks Examples.w_cached
                   !! dewy.filepath_Join [dewy.root Examples.dewy0; dewy.symlinkDir]
                 = Some Examples.oldSlot) by (vm_compute; reflexivity).
  destruct (deploy_remove_refused Examples2.env_remove_fails Examples.dewy0
              Examples.exampleKey Examples.w_cached Examples.oldSlot
              (Errorf "operation not permitted") Hold
              (fun _ => eq_refl) (fun _ => eq_refl)
              (fun _ => eq_refl) (fun _ => eq_refl))
    as (w' & Hd & Hlinks & _).
  exists w'. split; [exact Hd|exact Hlinks].
Defined.

Lemma assets_mode_leaves_server_witness :
  List.filter isLifecycle
    (events (snd (dewy.ticks Examples.env_ok (HR := Examples2.countingRepository) 2
                    Examples2.dewy_assets Examples.w_old)))
    = List.filter isLifecycle (events Examples.w_old) /\
  dewy.isServerRunning (dewy.set_repository (Some O) Examples2.dewy_assets)
    = dewy.isServerRunning Examples2.dewy_assets.
Proof.
  refine (assets_mode_leaves_server Examples.env_ok
            (HR := Examples2.countingRepository) 2 Examples2.dewy_assets
            (dewy.set_repository (Some O) Examples2.dewy_assets)
            Examples.w_old _ eq_refl _).
  vm_compute. reflexivity.
Defined.

Lemma Run_assets_skips_record_witness :
  dewy.Run Examples.env_ok (HR := Examples2.countingRepository)
    Examples2.dewy_assets Examples.w_old
  = (Ret (dewy.set_repository (Some O) Examples2.dewy_assets, None),
     snd (dewy.deploy Examples.env_ok
            (dewy.set_repository (Some O) Examples2.dewy_assets)
            Examples.exampleKey
            (emit (EvNotify
                     ("New release <" +:+
                      dewy.repo_ReleaseHTMLURL (Repository := Examples2.countingRepository) O
                      +:+ "|" +:+
                      dewy.repo_ReleaseTag (Repository := Examples2.countingRepository) O
                      +:+ "> was downloaded"))
               (set_cache
                  (<[repo.currentKey := list_byte_of_string Examples.exampleKey]>
                     (<[Examples.exampleKey := Examples.exampleData]>
                        (cache Examples.w_old)))
                  Examples.w_old)))).
Proof.
  refine (Run_assets_skips_record Examples.env_ok
            (HR := Examples2.countingRepository) Examples2.dewy_assets
            Examples.w_old _ O O O (cache Examples.w_old) (cache Examples.w_old)
            (<[repo.currentKey := list_byte_of_string Examples.exampleKey]>
               (<[Examples.exampleKey := Examples.exampleData]>
                  (cache Examples.w_old)))
            Examples.exampleKey eq_refl eq_refl eq_refl eq_refl _).
  vm_compute. reflexivity.
Defined.

Lemma Run_download_error_swallowed_witness :
  exists w',
    dewy.Run Examples.env_ok (HR := Examples2.failingDownload) Examples.dewy0
      Examples.w_old = (Ret (dewy.set_repository (Some tt) Examples.dewy0, None), w') /\
    events w' = events Examples.w_old.
Proof.
  destruct (Run_download_error_swallowed Examples.env_ok
              (HR := Examples2.failingDownload) Examples.dewy0 Examples.w_old
              tt tt tt (cache Examples.w_old) (cache Examples.w_old)
              (cache Examples.w_old) "" (Errorf "connection reset")
              eq_refl eq_refl eq_refl)
    as (w' & Hrun & Hev & _).
  exists w'. split; [exact Hrun|exact Hev].
Defined.

Lemma Run_deploy_error_witness :
  dewy.Run Examples.env_extract_fails (HR := Examples.stubRepository)
    Examples.dewy0 Examples.w_old
  = (Ret (dewy.set_repository (Some tt) Examples.dewy0,
          Some (Errorf "unsupported archive")),
     snd (dewy.deploy Examples.env_extract_fails
            (dewy.set_repository (Some tt) Examples.dewy0)
            Examples.exampleKey
            (emit (EvNotify
                     ("New release <" +:+
                      dewy.repo_ReleaseHTMLURL (Repository := Examples.stubRepository) tt
                      +:+ "|" +:+
                      dewy.repo_ReleaseTag (Repository := Examples.stubRepository) tt
                      +:+ "> was downloaded"))
               (set_cache
                  (<[repo.currentKey := list_byte_of_string Examples.exampleKey]>
                     (<[Examples.exampleKey := Examples.exampleData]>
                        (cache Examples.w_old)))
                  Examples.w_old)))).
Proof.
  refine (proj1 (Run_deploy_error Examples.env_extract_fails
            (HR := Examples.stubRepository) Examples.dewy0 Examples.w_old _
            tt tt tt (cache Examples.w_old) (cache Examples.w_old)
            (<[repo.currentKey := list_byte_of_string Examples.exampleKey]>
               (<[Examples.exampleKey := Examples.exampleData]>
                  (cache Examples.w_old)))
            Examples.exampleKey (Errorf "unsupported archive")
            eq_refl eq_refl eq_refl _)).
  vm_compute. reflexivity.
Defined.

(** * [RecordShipping] *)

Section Shipping.
Variable senv : shipping.ShipEnv.
Import repo shipping.

Lemma ReplaceSpace_no_space (s : string) :
  ~ In " "%char (list_ascii_of_string (ReplaceSpace s)).
Proof.
  induction s as [|c s IH]; simpl; [tauto|].
  intros [Hc|Hin]; [|tauto].
  destruct (Ascii.eqb_spec c " ") as [->|Hne]; [discriminate|congruence].
Qed.

Lemma list_ascii_of_string_app (a b : string) :
  list_ascii_of_string (a +:+ b) = list_ascii_of_string a ++ list_ascii_of_string b.
Proof.
  induction a as [|c a IH]; [reflexivity|].
  rewrite string_app_cons. simpl. now rewrite IH.
Qed.


End Shipping.


(** * The earlier repository *)

Section Earlier.
Variable sys : repository.Sys.
Import repository.

Lemma path_Split_spec (p : string) :
  let '(dir, file) := path_Split p in
  dir +:+ file = p /\
  ~ In "/"%char (list_ascii_of_string file).
Proof.
  induction p as [|c p IH]; simpl; [split; [reflexivity|tauto]|].
  destruct (path_Split p) as [dir file]. destruct IH as [Hjoin Hfile].
  destruct (String.eqb_spec dir "") as [->|Hdir].
  - simpl in Hjoin. subst p.
    destruct (Ascii.eqb_spec c "/") as [->|Hc].
    + split; [reflexivity|exact Hfile].
    + split; [reflexivity|]. simpl. intros [Heq|Hin]; [congruence|tauto].
  - split; [|exact Hfile]. rewrite string_app_cons. now rewrite Hjoin.
Qed.

(** When the configured endpoint does not parse, [Fetch] returns the error
    of the parsing without a call to the release host, the repository as
    it was. *)
Theorem Fetch_bad_endpoint (g : GithubReleaseRepository) (st : Disk)
    (u : option URL) (e : error) :
  endpoint g <> "" ->
  sys_url_Parse sys (endpoint g) = (u, Some e) ->
  Fetch sys g st = (Ret (g, Some e), st).
Proof.
  intros Hne Hparse. unfold Fetch, client.
  destruct (String.eqb_spec (endpoint g) "") as [Heq|_]; [contradiction|].
  simpl. now rewrite Hparse.
Qed.

Lemma old_fetchLoop_first_match (before after : list ReleaseAsset)
    (a : ReleaseAsset) (g : GithubReleaseRepository) (url : string) :
  Forall (fun v => exists n, asset_Name v = Some n /\ n <> artifact g) before ->
  asset_Name a = Some (artifact g) ->
  asset_BrowserDownloadURL a = Some url ->
  fetchLoop (before ++ a :: after) g = Ret (set_downloadURL url g).
Proof.
  intros Hbefore Hname Hurl.
  induction Hbefore as [|v rest (n & Hn & Hne) _ IH]; simpl.
  - rewrite Hname. simpl. rewrite String.eqb_refl, Hurl. reflexivity.
  - rewrite Hn. simpl.
    destruct (String.eqb_spec n (artifact g)) as [->|_]; [congruence|exact IH].
Qed.

Lemma old_fetchLoop_no_match (assets : list ReleaseAsset) (g : GithubReleaseRepository) :
  Forall (fun v => exists n, asset_Name v = Some n /\ n <> artifact g) assets ->
  fetchLoop assets g = Ret g.
Proof.
  induction 1 as [|v rest (n & Hn & Hne) _ IH]; simpl; [reflexivity|].
  rewrite Hn. simpl.
  destruct (String.eqb_spec n (artifact g)) as [->|_]; [congruence|exact IH].
Qed.

(** [Fetch] asks the release host once, with a client that carries the
    token and, for an endpoint that parses, that endpoint as its base URL,
    and takes the download URL of the first asset named as the artifact;
    the files are not touched. *)
Theorem Fetch_first_matching_url (g : GithubReleaseRepository) (st : Disk)
    (base : URL) (rel : RepositoryRelease) (before after : list ReleaseAsset)
    (a : ReleaseAsset) (url : string) :
  let c := {| client_token := token g; client_BaseURL := Some base |} in
  (if String.eqb (endpoint g) "" then base = defaultBaseURL
   else sys_url_Parse sys (endpoint g) = (Some base, None)) ->
  sys_GetLatestRelease sys c (owner g) (name g) = (Some rel, None) ->
  rel_Assets rel = before ++ a :: after ->
  Forall (fun v => exists n, asset_Name v = Some n /\ n <> artifact g) before ->
  asset_Name a = Some (artifact g) ->
  asset_BrowserDownloadURL a = Some url ->
  exists st',
    Fetch sys g st = (Ret (set_downloadURL url g, None), st') /\
    calls st' = calls st ++ [CallGetLatestRelease c (owner g) (name g)] /\
    files st' = files st.
Proof.
  intros c Hbase Hrel Hassets Hbefore Hname Hurl.
  assert (Hclient : client sys g = (Some c, None)).
  { unfold client. destruct (String.eqb (endpoint g) ""); simpl.
    - now subst base.
    - now rewrite Hbase. }
  eexists. split.
  - unfold Fetch. rewrite Hclient. simpl. rewrite Hrel. simpl.
    rewrite Hassets, (old_fetchLoop_first_match before after a g url) by assumption.
    reflexivity.
  - simpl. auto.
Qed.

Lemma Download_first_call (g : GithubReleaseRepository) (st st' : Disk) res :
  Download sys g st = (res, st') ->
  exists later, calls st' = calls st ++ CallGet (downloadURL g) :: later.
Proof.
  unfold Download.
  destruct (sys_http_Get sys (downloadURL g)) as [[body|] [e|]]; simpl;
    try (intros [= <- <-]; exists []; reflexivity).
  destruct (rd_err body); [intros [= <- <-]; exists []; reflexivity|].
  destruct (path_Split (downloadURL g)) as [dir file].
  destruct (sys_OpenFile_fault sys _ file); intros [= <- <-]; simpl;
    rewrite <- ?app_assoc; eexists; reflexivity.
Qed.

(** A release without the artifact goes unnoticed: for a repository made by
    [NewRepository], [Fetch] returns nil with the download URL still empty,
    and the [Download] that follows asks for the empty URL. *)
Theorem missing_artifact_gets_empty_url (c : RepositoryConfig) (st : Disk)
    (rel : RepositoryRelease) :
  cfg_Provider c = GITHUB ->
  cfg_Endpoint c = "" ->
  sys_GetLatestRelease sys
    {| client_token := cfg_Token c; client_BaseURL := Some defaultBaseURL |}
    (cfg_Owner c) (cfg_Name c) = (Some rel, None) ->
  Forall (fun v => exists n, asset_Name v = Some n /\ n <> cfg_Artifact c)
    (rel_Assets rel) ->
  exists g st1 res st2,
    NewRepository c = Ret g /\
    Fetch sys g st = (Ret (g, None), st1) /\ downloadURL g = "" /\
    Download sys g st1 = (res, st2) /\
    exists later, calls st2 = calls st1 ++ CallGet "" :: later.
Proof.
  intros Hprov Hend Hrel Hassets.
  unfold NewRepository. rewrite Hprov.
  set (g := {| token := cfg_Token c; endpoint := cfg_Endpoint c;
               owner := cfg_Owner c; name := cfg_Name c;
               artifact := cfg_Artifact c; downloadURL := "" |}).
  assert (Hfetch : Fetch sys g st =
            (Ret (g, None),
             log (CallGetLatestRelease
                    {| client_token := cfg_Token c;
                       client_BaseURL := Some defaultBaseURL |}
                    (cfg_Owner c) (cfg_Name c)) st)).
  { unfold Fetch, client. simpl. rewrite Hend. simpl. rewrite Hrel. simpl.
    rewrite old_fetchLoop_no_match by exact Hassets. reflexivity. }
  destruct (Download sys g (log (CallGetLatestRelease
                    {| client_token := cfg_Token c;
                       client_BaseURL := Some defaultBaseURL |}
                    (cfg_Owner c) (cfg_Name c)) st)) as [res st2] eqn:Hd.
  eexists g, _, res, st2.
  split; [reflexivity|]. split; [exact Hfetch|]. split; [reflexivity|].
  split; [exact Hd|]. exact (Download_first_call g _ _ _ Hd).
Qed.

(** When the GET and the opening of the file succeed, [Download] returns
    nil, however many bytes the write took. It writes one file, in the
    working directory, named by what follows the last slash of the download
    URL; the file is not truncated: the bytes taken replace its head, and
    what an older, longer file held behind them stays. *)
Theorem Download_writes_base_name (g : GithubReleaseRepository) (st : Disk)
    (body : Reader) (dir file : string) :
  sys_http_Get sys (downloadURL g) = (Some body, None) ->
  rd_err body = None ->
  path_Split (downloadURL g) = (dir, file) ->
  sys_OpenFile_fault sys (log (CallGet (downloadURL g)) st) file = None ->
  let data := rd_data body in
  let old := default [] (files st !! file) in
  let taken := Nat.min (sys_Write_count sys file data) (length data) in
  exists st',
    Download sys g st = (Ret None, st') /\
    downloadURL g = dir +:+ file /\
    ~ In "/"%char (list_ascii_of_string file) /\
    files st' !! file = Some (take taken data ++ drop taken old) /\
    (forall other, other <> file -> files st' !! other = files st !! other) /\
    calls st' = calls st ++ [CallGet (downloadURL g); CallOpenFile file;
                             CallWrite file data] /\
    (length data <= sys_Write_count sys file data ->
       files st' !! file = Some (data ++ drop (length data) old))%nat.
Proof.
  intros Hget Hrd Hsplit Hopen data old taken.
  pose proof (path_Split_spec (downloadURL g)) as Hspec.
  rewrite Hsplit in Hspec. destruct Hspec as [Hjoin Hfile].
  eexists. split.
  - unfold Download. rewrite Hget. simpl. rewrite Hrd, Hsplit, Hopen.
    reflexivity.
  - simpl. split; [now rewrite Hjoin|]. split; [exact Hfile|].
    split; [apply lookup_insert_eq|].
    split; [intros other Hne; now rewrite lookup_insert_ne|].
    split; [now rewrite <- !app_assoc|].
    intros Hall. rewrite lookup_insert_eq. unfold writeAt0.
    fold data. rewrite Nat.min_r by exact Hall.
    now rewrite firstn_all.
Qed.

(** A [Download] that does not return nil leaves every file as it was. *)
Theorem Download_failure_keeps_files (g : GithubReleaseRepository)
    (st st' : Disk) res :
  Download sys g st = (res, st') ->
  res <> Ret None ->
  files st' = files st.
Proof.
  unfold Download.
  destruct (sys_http_Get sys (downloadURL g)) as [[body|] [e|]]; simpl;
    try (intros [= <- <-] _; reflexivity).
  destruct (rd_err body); [intros [= <- <-] _; reflexivity|].
  destruct (path_Split (downloadURL g)) as [dir file].
  destruct (sys_OpenFile_fault sys _ file); intros [= <- <-] Hres;
    [reflexivity|congruence].
Qed.

End Earlier.

Lemma Fetch_bad_endpoint_witness :
  repository.Fetch Examples2.sys_ok Examples2.old_g_bad Examples2.disk0 =
  (Ret (Examples2.old_g_bad, Some (Errorf "parse error")), Examples2.disk0).
Proof.
  refine (Fetch_bad_endpoint Examples2.sys_ok Examples2.old_g_bad Examples2.disk0
            None (Errorf "parse error") _ eq_refl).
  discriminate.
Defined.

Lemma Fetch_first_matching_url_witness :
  exists st',
    repository.Fetch Examples2.sys_ok Examples2.old_g0 Examples2.disk0
      = (Ret (Examples2.old_g1, None), st') /\
    repository.files st' = repository.files Examples2.disk0.
Proof.
  destruct (Fetch_first_matching_url Examples2.sys_ok Examples2.old_g0
              Examples2.disk0 repository.defaultBaseURL Examples.release1
              [Examples.otherAsset] [] Examples.asset1 Examples.exampleURL
              eq_refl eq_refl eq_refl)
    as (st' & Hfetch & _ & Hfiles); try reflexivity.
  - repeat constructor. exists "checksums.txt". split; [reflexivity|discriminate].
  - exists st'. split; [exact Hfetch|exact Hfiles].
Defined.

Lemma missing_artifact_gets_empty_url_witness :
  exists g st1,
    repository.NewRepository Examples2.oldConfig = Ret g /\
    repository.Fetch Examples2.sys_no_artifact g Examples2.disk0
      = (Ret (g, None), st1) /\
    repository.downloadURL g = "".
Proof.
  destruct (missing_artifact_gets_empty_url Examples2.sys_no_artifact
              Examples2.oldConfig Examples2.disk0 Examples.release2
              eq_refl eq_refl eq_refl)
    as (g & st1 & res & st2 & Hnew & Hfetch & Hurl & _).
  - repeat constructor. exists "checksums.txt". split; [reflexivity|discriminate].
  - exists g, st1. auto.
Defined.

Lemma Download_writes_base_name_witness :
  exists st',
    repository.Download Examples2.sys_ok Examples2.old_g1 Examples2.disk0
      = (Ret None, st') /\
    repository.files st' !! "app-linux.tar.gz"
      = Some (list_byte_of_string "archiver, older archive").
Proof.
  assert (Hsplit : repository.path_Split (repository.downloadURL Examples2.old_g1)
                   = ("https://github.com/releases/download/v1.2.3/",
                      "app-linux.tar.gz")) by (vm_compute; reflexivity).
  destruct (Download_writes_base_name Examples2.sys_ok Examples2.old_g1
              Examples2.disk0 {| rd_data := Examples.exampleData; rd_err := None |}
              _ _ eq_refl eq_refl Hsplit eq_refl)
    as (st' & Hd & _ & _ & _ & _ & _ & Hfull).
  exists st'. split; [exact Hd|].
  rewrite Hfull by apply le_n. vm_compute. reflexivity.
Defined.

Lemma Download_failure_keeps_files_witness :
  repository.files
    (snd (repository.Download Examples2.sys_get_fails Examples2.old_g1
            Examples2.disk0))
  = repository.files Examples2.disk0.
Proof.
  refine (Download_failure_keeps_files Examples2.sys_get_fails Examples2.old_g1
            Examples2.disk0 _ _ (surjective_pairing _) _).
  vm_compute. discriminate.
Defined.
